(** * Technical documentation agent: chunker and conversation pipeline

    A shallow embedding of
    - [app/services/document_processor.py] (the chunker and the ingestion
      driver),
    - [app/graph/nodes.py] (the eight pipeline stages),
    - [app/graph/agent_graph.py] (the graph and [process_message]),
    - [app/services/chat_service.py] (the chat service) with the parts of
      [app/services/vector_store.py] and [app/main.py] it meets,
    followed by the properties of the specification that were checked
    against them, and by further properties of the code.

    Conventions.  Text is [string] (one [ascii] per character; the
    character classes below are the ASCII part of Python's).  A Python
    [dict] is a [gmap] with string keys.  Exceptions are values of
    [Result]; the message of an exception ([str(e)]) stands for it.  The
    language model and the vector index are collaborators outside the
    repository: they are oracles that see the whole interaction so far,
    and every call is appended to a trace. *)

From stdpp Require Import gmap strings list fin_maps pretty.
From Equations Require Import Equations.
From Stdlib Require Import Ascii ZArith Lia.

#[local] Open Scope Z_scope.
#[local] Set Warnings "-register-all".

(** ** Python text primitives *)

Module Py.

(** ["\n"] *)
Definition nl : string := String "010"%char "".

(** [len(s)] *)
Definition len (s : string) : Z := Z.of_nat (String.length s).

(** [str.isspace] on one character. *)
Definition isspace (c : ascii) : bool :=
  match c with
  | "009" | "010" | "011" | "012" | "013"
  | "028" | "029" | "030" | "031" | " " => true
  | _ => false
  end%char.

(** A character of the regular-expression class [\w]. *)
Definition isword (c : ascii) : bool :=
  let n := N_of_ascii c in
  ((48 <=? n) && (n <=? 57) || (65 <=? n) && (n <=? 90)
   || (97 <=? n) && (n <=? 122) || (n =? 95))%N.

(** One character in lower case, in upper case. *)
Definition lower_char (c : ascii) : ascii :=
  let n := N_of_ascii c in
  if ((65 <=? n) && (n <=? 90))%N then ascii_of_N (n + 32) else c.

Definition upper_char (c : ascii) : ascii :=
  let n := N_of_ascii c in
  if ((97 <=? n) && (n <=? 122))%N then ascii_of_N (n - 32) else c.

Fixpoint map_chars (f : ascii → ascii) (s : string) : string :=
  match s with
  | "" => ""
  | String c r => String (f c) (map_chars f r)
  end.

(** [s.lower()], [s.upper()] *)
Definition lower : string → string := map_chars lower_char.
Definition upper : string → string := map_chars upper_char.

(** [not s] for a string: the empty string is falsy. *)
Definition is_empty (s : string) : bool :=
  match s with "" => true | _ => false end.

(** [s.lstrip()], [s.rstrip()], [s.strip()] *)
Fixpoint lstrip (s : string) : string :=
  match s with
  | "" => ""
  | String c r => if isspace c then lstrip r else s
  end.

Fixpoint rstrip (s : string) : string :=
  match s with
  | "" => ""
  | String c r =>
      let r' := rstrip r in
      if isspace c && is_empty r' then "" else String c r'
  end.

Definition strip (s : string) : string := rstrip (lstrip s).

(** [sub in s] *)
Fixpoint contains (sub s : string) : bool :=
  String.prefix sub s
  || match s with "" => false | String _ r => contains sub r end.

(** [sep.join(l)] *)
Fixpoint join (sep : string) (l : list string) : string :=
  match l with
  | [] => ""
  | [x] => x
  | x :: r => x +:+ sep +:+ join sep r
  end.

(** [s.split('\n\n')]: cut at each blank-line marker, left to right. *)
Fixpoint split_nn (s : string) : list string :=
  match s with
  | "" => [""]
  | String c r =>
      match c, r with
      | "010"%char, String "010"%char r' => "" :: split_nn r'
      | _, _ =>
          match split_nn r with
          | h :: t => String c h :: t
          | [] => [String c ""]
          end
      end
  end.

(** [l[-n:]] for [n > 0]: the last [n] elements. *)
Definition last_n {A} (n : nat) (l : list A) : list A :=
  drop (length l - n)%nat l.

(** The longest run of word characters at the head of [s], and what
    follows it: what the greedy [\w+] takes. *)
Fixpoint word_span (s : string) : string * string :=
  match s with
  | "" => ("", "")
  | String c r =>
      if isword c
      then let '(w, r') := word_span r in (String c w, r')
      else ("", s)
  end.

(** The regular expression [```(\w+)?\n] tried at the head of [s]: the
    captured word (empty when the group does not take part) and what
    follows the match.  A shorter word cannot match, as the character after
    it is a word character and not the newline. *)
Definition match_fence (s : string) : option (string * string) :=
  match s with
  | String "`" (String "`" (String "`" r)) =>
      match word_span r with
      | (w, String "010" r') => Some (w, r')
      | _ => None
      end
  | _ => None
  end%char.

(** The fenced-code marker. *)
Definition fence : string := "```".

(** [lambda m: f'```{m.group(1) or "text"}\n'] *)
Definition fence_repl (w : string) : string :=
  fence +:+ (if is_empty w then "text" else w) +:+ nl.

(** A match consumes at least the marker: the scan below terminates. *)
Lemma word_span_length s w r :
  word_span s = (w, r) → (String.length r ≤ String.length s)%nat.
Proof.
  revert w r. induction s as [|c s IH]; intros w r; simpl.
  - intros [= <- <-]. done.
  - destruct (isword c).
    + destruct (word_span s) as [w' r'] eqn:E. intros [= <- <-].
      specialize (IH _ _ eq_refl). lia.
    + intros [= <- <-]. simpl. lia.
Qed.

Lemma match_fence_length s w r :
  match_fence s = Some (w, r) → (String.length r < String.length s)%nat.
Proof.
  destruct s as [|c1 [|c2 [|c3 s]]]; simpl; try done;
    repeat (case_match; try done).
  intros [= <- <-]; subst.
  match goal with H : word_span _ = _ |- _ =>
    apply word_span_length in H; simpl in *; lia end.
Qed.

(** A value together with the equation that defines it. *)
Definition inspect {A} (a : A) : {b | a = b} := exist _ a eq_refl.

(** [re.sub(r'```(\w+)?\n', repl, s)]: scan left to right; at a match
    put the replacement and go on after the match, otherwise keep the
    character and move one position. *)
Equations? re_sub_fence (s : string) : string by wf (String.length s) lt :=
  re_sub_fence "" := "";
  re_sub_fence (String c r) with inspect (match_fence (String c r)) := {
    | exist _ (Some (w, rest)) Hm => fence_repl w +:+ re_sub_fence rest;
    | exist _ None _ => String c (re_sub_fence r) }.
Proof.
  change (match_fence (String c r) = Some (w, rest)) in Hm.
  apply match_fence_length in Hm. simpl in Hm. lia.
Qed.

End Py.

(** The outcome of a Python call: a value, or an exception (its message). *)
Inductive Result (A : Type) :=
  | Ok (a : A)
  | Raise (e : string).
Arguments Ok {A} a.
Arguments Raise {A} e.

(** ** The chunker: [app/services/document_processor.py] *)

(** A value of a chunk's metadata dictionary: text, or the heading level. *)
Inductive MetaVal :=
  | MStr (s : string)
  | MInt (n : Z).

#[export] Instance MetaVal_eq_dec : EqDecision MetaVal.
Proof. solve_decision. Defined.

(** A chunk: [{'id', 'content', 'type', 'metadata'}]. *)
Record Chunk := mkChunk {
  chunk_id : string;
  chunk_content : string;
  chunk_type : string;
  chunk_metadata : gmap string MetaVal
}.

(** What [_extract_content] hands to the chunker. *)
Record Section_ := mkSection {
  sec_title : string;
  sec_level : Z;
  sec_content : string;
  sec_id : string
}.

Record CodeBlock := mkCodeBlock {
  cb_content : string;
  cb_language : string;
  cb_id : string
}.

Record PageContent := mkPageContent {
  title : string;
  sections : list Section_;
  code_blocks : list CodeBlock
}.

(** [chunk['metadata']['chunk_type']], as the retrieval side reads it. *)
Definition meta_chunk_type (c : Chunk) : option MetaVal :=
  chunk_metadata c !! "chunk_type".

(** The rows the ingestion driver writes. *)
Record ChatSession := mkChatSession {
  cs_url : string;
  cs_status : string;
  cs_progress : Z;
  cs_error_message : option string
}.

Record DocumentChunk := mkDocumentChunk {
  dc_chat_id : string;
  dc_chunk_id : string;
  dc_content : string;
  dc_metadata : gmap string MetaVal
}.

(** The committed rows of the database and the collections of the vector
    store. *)
Record Store := mkStore {
  chat_sessions : gmap string ChatSession;
  document_chunks : list DocumentChunk;
  collections : gmap string (list Chunk)
}.

Module DocumentProcessor.
Section Chunker.

(** [settings.max_chunk_size] (an [int] of the configuration). *)
Variable max_chunk_size : Z.

(** [str(uuid.uuid4())]: [uuid4 k] is the [k]-th identifier the generator
    hands out.  Every chunk draws exactly one, and nothing else draws, so
    the chunk appended to a list of [k] chunks carries [uuid4 k]. *)
Variable uuid4 : nat → string.

Definition continued : string := " (continued)".
Definition nlnl : string := Py.nl +:+ Py.nl.

Definition title_chunk (uid url page_title : string) : Chunk :=
{| chunk_id := uid;
   chunk_content := "Title: " +:+ page_title;
   chunk_type := "title";
   chunk_metadata :=
     <["url" := MStr url]> (<["section" := MStr "title"]>
     (<["chunk_type" := MStr "title"]> ∅)) |}.

Definition section_metadata (url : string) (sec_title sec_id : string)
  (level : Z) (kind : string) : gmap string MetaVal :=
<["url" := MStr url]> (<["section" := MStr sec_title]>
(<["section_id" := MStr sec_id]> (<["level" := MInt level]>
(<["chunk_type" := MStr kind]> ∅)))).

Definition section_chunk (uid url : string) (section : Section_) : Chunk :=
{| chunk_id := uid;
   chunk_content := sec_title section +:+ nlnl +:+ sec_content section;
   chunk_type := "section";
   chunk_metadata :=
     section_metadata url (sec_title section) (sec_id section)
                      (sec_level section) "section" |}.

Definition section_part_chunk (uid content url sec_title sec_id : string)
  (level : Z) : Chunk :=
{| chunk_id := uid;
   chunk_content := content;
   chunk_type := "section";
   chunk_metadata :=
     section_metadata url sec_title sec_id level "section_part" |}.

Definition code_chunk (uid url : string) (code_block : CodeBlock) : Chunk :=
{| chunk_id := uid;
   chunk_content :=
     "Code Block (" +:+ cb_language code_block +:+ "):" +:+ Py.nl
     +:+ Py.fence +:+ cb_language code_block +:+ Py.nl
     +:+ cb_content code_block +:+ Py.nl +:+ Py.fence;
   chunk_type := "code";
   chunk_metadata :=
     <["url" := MStr url]> (<["language" := MStr (cb_language code_block)]>
     (<["code_id" := MStr (cb_id code_block)]>
     (<["chunk_type" := MStr "code"]> ∅))) |}.

(** The loop of [_split_text_intelligently]: [chunks] and [current_chunk]
    are the two variables it updates; [n0] identifiers were drawn before
    the call. *)
Fixpoint split_loop (title_ url section_id : string) (level : Z) (n0 : nat)
  (paragraphs : list string) (chunks : list Chunk)
  (current_chunk : string) : list Chunk * string :=
match paragraphs with
| [] => (chunks, current_chunk)
| paragraph :: rest =>
    let paragraph := Py.strip paragraph in
    if Py.is_empty paragraph
    then split_loop title_ url section_id level n0 rest chunks current_chunk
    else
      let '(chunks, current_chunk) :=
        if (Py.len current_chunk + Py.len paragraph >? max_chunk_size)
           && negb (Py.is_empty (Py.strip current_chunk))
        then
          (chunks ++ [section_part_chunk (uuid4 (n0 + length chunks))
                        (Py.strip current_chunk) url title_ section_id level],
           title_ +:+ continued +:+ nlnl)
        else (chunks, current_chunk) in
      split_loop title_ url section_id level n0 rest chunks
                 (current_chunk +:+ paragraph +:+ nlnl)
end.

Definition _split_text_intelligently (n0 : nat)
  (text title_ url section_id : string) (level : Z) : list Chunk :=
let paragraphs := Py.split_nn text in
let '(chunks, current_chunk) :=
  split_loop title_ url section_id level n0 paragraphs []
             (title_ +:+ nlnl) in
if negb (Py.is_empty (Py.strip current_chunk))
then chunks ++ [section_part_chunk (uuid4 (n0 + length chunks))
                  (Py.strip current_chunk) url title_ section_id level]
else chunks.

(** One turn of the loop over [content['sections']]. *)
Definition add_section (url : string) (chunks : list Chunk)
  (section : Section_) : list Chunk :=
if Py.len (sec_content section) <=? max_chunk_size
then chunks ++ [section_chunk (uuid4 (length chunks)) url section]
else chunks ++ _split_text_intelligently (length chunks)
                 (sec_content section) (sec_title section) url
                 (sec_id section) (sec_level section).

(** One turn of the loop over [content['code_blocks']]. *)
Definition add_code_block (url : string) (chunks : list Chunk)
  (code_block : CodeBlock) : list Chunk :=
chunks ++ [code_chunk (uuid4 (length chunks)) url code_block].

Definition _create_intelligent_chunks (content : PageContent)
  (url : string) : list Chunk :=
let chunks := [] in
let chunks :=
  if negb (Py.is_empty (title content))
  then chunks ++ [title_chunk (uuid4 (length chunks)) url (title content)]
  else chunks in
let chunks := fold_left (add_section url) (sections content) chunks in
let chunks := fold_left (add_code_block url) (code_blocks content) chunks in
chunks.

End Chunker.

(** *** The ingestion driver: [process_documentation] *)

Section Driver.

Variable max_chunk_size : Z.
Variable uuid4 : nat → string.

(** [_fetch_url]: the page text, or [None] on any failure of the request. *)
Variable _fetch_url : string → option string.
(** [_extract_content]: the BeautifulSoup traversal of the page. *)
Variable _extract_content : string → PageContent.
(** [collection.add] of the vector store: [Some e] when it raises. *)
Variable collection_add_error : string → list Chunk → option string.

Definition _update_session_status (st : Store) (chat_id status : string)
  (progress : Z) (error_message : option string) : Store :=
match chat_sessions st !! chat_id with
| Some session =>
    let session' :=
      {| cs_url := cs_url session;
         cs_status := status;
         cs_progress := progress;
         cs_error_message :=
           match error_message with
           | Some m => if Py.is_empty m then cs_error_message session else Some m
           | None => cs_error_message session
           end |} in
    {| chat_sessions := <[chat_id := session']> (chat_sessions st);
       document_chunks := document_chunks st;
       collections := collections st |}
| None => st
end.

(** [VectorStore.add_chunks]: add to the collection of the chat, created
    on first use; a failure of the store is raised again. *)
Definition add_chunks (st : Store) (chunks : list Chunk) (chat_id : string)
  : Result unit * Store :=
let collection_name := "chat_" +:+ chat_id in
let collection := default [] (collections st !! collection_name) in
match collection_add_error collection_name chunks with
| Some e =>
    (Raise e,
     {| chat_sessions := chat_sessions st;
        document_chunks := document_chunks st;
        collections := <[collection_name := collection]> (collections st) |})
| None =>
    (Ok (),
     {| chat_sessions := chat_sessions st;
        document_chunks := document_chunks st;
        collections :=
          <[collection_name := collection ++ chunks]> (collections st) |})
end.

Definition _store_chunks (st : Store) (chunks : list Chunk) (chat_id : string)
  : Result unit * Store :=
let rows :=
  map (λ chunk, {| dc_chat_id := chat_id;
                   dc_chunk_id := chunk_id chunk;
                   dc_content := chunk_content chunk;
                   dc_metadata := chunk_metadata chunk |}) chunks in
let st := {| chat_sessions := chat_sessions st;
             document_chunks := document_chunks st ++ rows;
             collections := collections st |} in
add_chunks st chunks chat_id.

(** The result ([True]/[False]) and the store afterwards.  The test
    [if not content] of the source is on a dictionary with three keys,
    which is never empty, so that branch does not exist here.  Of the
    exceptions the outer [except] catches, the one of the vector store is
    modelled; the database session and the HTML parser are taken to
    succeed. *)
Definition process_documentation (url chat_id : string) (st : Store)
  : bool * Store :=
let st := _update_session_status st chat_id "processing" 10 None in
match _fetch_url url with
| None =>
    (false, _update_session_status st chat_id "failed" 0 (Some "Failed to fetch URL"))
| Some html_content =>
    if Py.is_empty html_content then
      (false, _update_session_status st chat_id "failed" 0 (Some "Failed to fetch URL"))
    else
      let st := _update_session_status st chat_id "processing" 30 None in
      let content := _extract_content html_content in
      let st := _update_session_status st chat_id "processing" 50 None in
      let chunks :=
        _create_intelligent_chunks max_chunk_size uuid4 content url in
      match chunks with
      | [] =>
          (false, _update_session_status st chat_id "failed" 0 (Some "No chunks created"))
      | _ =>
          let st := _update_session_status st chat_id "processing" 70 None in
          match _store_chunks st chunks chat_id with
          | (Ok _, st) =>
              (true, _update_session_status st chat_id "completed" 100 None)
          | (Raise e, st) =>
              (false, _update_session_status st chat_id "failed" 0 (Some e))
          end
      end
end.

End Driver.
End DocumentProcessor.

(** ** Effects of the conversation pipeline *)

(** A row of the message log; the stages read [role] and [content]. *)
Record ChatMessage := mkChatMessage {
  role : string;
  content : string;
  timestamp : string
}.

(** One entry of [VectorStore.search]'s result:
    [{'content', 'metadata', 'distance'}].  The distance is a number the
    pipeline never inspects. *)
Record SearchHit := mkSearchHit {
  hit_content : string;
  hit_metadata : gmap string MetaVal;
  hit_distance : option Z
}.

(** A call to a collaborator, with what it gave back. *)
Inductive Event :=
  | EvQuery (collection query : string) (n_results : nat)
            (res : Result (list SearchHit))
  | EvLlm (prompt : string) (res : Result string).

Abbreviation Trace := (list Event).

(** The collaborators.  Each answers from the interaction so far and the
    arguments of the call:
    - [llm]: [self.llm.ainvoke(prompt)], giving [.content] or raising;
    - [chroma_query]: [collection.query(query_texts=[query],
      n_results=top_k, ...)] on the collection of that name, already
      formatted as the list [search] builds from it, or raising (also when
      the collection does not exist). *)
Record Env := mkEnv {
  llm : Trace → string → Result string;
  chroma_query : Trace → string → string → nat → Result (list SearchHit)
}.

(** A computation: from the trace so far to an outcome and the new trace. *)
Definition M (A : Type) : Type := Trace → Result A * Trace.

Definition ret {A} (a : A) : M A := λ t, (Ok a, t).
Definition raise {A} (e : string) : M A := λ t, (Raise e, t).
Definition bind {A B} (m : M A) (k : A → M B) : M B :=
  λ t, match m t with
       | (Ok a, t') => k a t'
       | (Raise e, t') => (Raise e, t')
       end.

(** [try: body except Exception as e: handler] *)
Definition try_except {A} (body : M A) (handler : string → M A) : M A :=
  λ t, match body t with
       | (Ok a, t') => (Ok a, t')
       | (Raise e, t') => handler e t'
       end.

Notation "'let*' x ':=' m 'in' k" := (bind m (λ x, k))
  (at level 10, x name, m at level 100, k at level 200, only parsing).

(** How often the language model was invoked in a trace. *)
Definition llm_calls (t : Trace) : nat :=
  length (List.filter (λ ev, match ev with EvLlm _ _ => true | _ => false end) t).

(** ** The pipeline state *)

(** The values a state holds.  The state is a Python [dict]; each key the
    pipeline uses is read at the type the pipeline writes it with.  A state
    that holds a value of another type under such a key is outside this
    embedding: a read at the wrong type gives the default of [.get]. *)
Inductive Value :=
  | VStr (s : string)
  | VInt (n : Z)
  | VMessages (l : list ChatMessage)
  | VChunks (l : list SearchHit)
  | VStrs (l : list string)
  | VDict (d : gmap string Value).

Abbreviation State := (gmap string Value).

Definition get_str (d : gmap string Value) (k dflt : string) : string :=
  match d !! k with Some (VStr x) => x | _ => dflt end.
Definition get_messages (d : gmap string Value) (k : string) : list ChatMessage :=
  match d !! k with Some (VMessages l) => l | _ => [] end.
Definition get_chunks (d : gmap string Value) (k : string) : list SearchHit :=
  match d !! k with Some (VChunks l) => l | _ => [] end.
Definition get_strs (d : gmap string Value) (k : string) : list string :=
  match d !! k with Some (VStrs l) => l | _ => [] end.
Definition get_dict (d : gmap string Value) (k : string) : gmap string Value :=
  match d !! k with Some (VDict m) => m | _ => ∅ end.

(** ** The vector index as the pipeline sees it: [VectorStore.search] *)

Module VectorStore.
Section Search.
Context (env : Env).

(** Any failure of the query is logged and turned into no result. *)
Definition search (query chat_id : string) (top_k : nat) : M (list SearchHit) :=
λ t,
  let collection_name := "chat_" +:+ chat_id in
  let res := chroma_query env t collection_name query top_k in
  let t' := t ++ [EvQuery collection_name query top_k res] in
  match res with
  | Ok formatted_results => (Ok formatted_results, t')
  | Raise _ => (Ok [], t')
  end.

End Search.
End VectorStore.

(** ** The stages: [app/graph/nodes.py] *)

Module GraphNodes.
Section Nodes.
Context (env : Env).

(** [await self.llm.ainvoke(prompt)], then [.content] *)
Definition llm_ainvoke (prompt : string) : M string :=
λ t, let res := llm env t prompt in (res, t ++ [EvLlm prompt res]).

Definition lines : list string → string := Py.join Py.nl.

(** [f"{msg.role}: {msg.content}"] *)
Definition format_message (msg : ChatMessage) : string :=
role msg +:+ ": " +:+ content msg.

(** The context string built from the last [n] messages of the history;
    empty for an empty history. *)
Definition history_context (n : nat) (chat_history : list ChatMessage) : string :=
match chat_history with
| [] => ""
| _ => let recent_messages := Py.last_n n chat_history in
       Py.join Py.nl (map format_message recent_messages)
end.

Definition input_node (state : State) : M State :=
ret (<["current_step" := VStr "input_received"]>
     (<["user_message" := default (VStr "") (state !! "message")]> state)).

Definition intent_prompt (context user_message : string) : string :=
lines [
  "";
  "        Analyze the user's intent based on their message and conversation context.";
  "        ";
  "        Conversation Context:";
  "        " +:+ context;
  "        ";
  "        User Message: " +:+ user_message;
  "        ";
  "        Classify the intent into one of these categories:";
  "        1. GENERAL_QUESTION - General questions about the documentation";
  "        2. CODE_QUESTION - Questions about specific code or implementation";
  "        3. FOLLOW_UP - Follow-up questions that reference previous conversation";
  "        4. CLARIFICATION_NEEDED - Unclear or ambiguous questions";
  "        ";
  "        Respond with only the category name.";
  "        " ].

Definition valid_intents : list string :=
["GENERAL_QUESTION"; "CODE_QUESTION"; "FOLLOW_UP"; "CLARIFICATION_NEEDED"].

Definition intent_analysis_node (state : State) : M State :=
let user_message := get_str state "user_message" "" in
let chat_history := get_messages state "chat_history" in
let context := history_context 3 chat_history in
try_except
  (let* intent_response := llm_ainvoke (intent_prompt context user_message) in
   let intent := Py.upper (Py.strip intent_response) in
   let intent :=
     if bool_decide (intent ∈ valid_intents) then intent
     else "GENERAL_QUESTION" in
   ret (<["current_step" := VStr "intent_analyzed"]>
        (<["intent" := VStr intent]> state)))
  (λ e,
   ret (<["current_step" := VStr "intent_analyzed"]>
        (<["intent" := VStr "GENERAL_QUESTION"]> state))).

Definition routing_map : gmap string string :=
<["GENERAL_QUESTION" := "rag_node"]>
(<["CODE_QUESTION" := "code_analysis_node"]>
(<["FOLLOW_UP" := "rag_node"]>
(<["CLARIFICATION_NEEDED" := "clarification_node"]> ∅))).

Definition conditional_router (state : State) : M State :=
let intent := get_str state "intent" "GENERAL_QUESTION" in
let next_node := default "rag_node" (routing_map !! intent) in
ret (<["current_step" := VStr "routed"]>
     (<["next_node" := VStr next_node]> state)).

Definition no_information : string :=
"I couldn't find relevant information in the documentation to answer your question. Could you please rephrase or ask about a different topic?".

Definition response_prompt (conversation_context context user_message : string)
  : string :=
lines [
  "";
  "            You are a helpful assistant that answers questions about technical documentation.";
  "            ";
  "            Conversation History:";
  "            " +:+ conversation_context;
  "            ";
  "            Relevant Documentation Context:";
  "            " +:+ context;
  "            ";
  "            User Question: " +:+ user_message;
  "            ";
  "            Please provide a comprehensive and accurate answer based on the documentation context.";
  "            If the answer includes code, format it properly with markdown.";
  "            If you're not sure about something, say so clearly.";
  "            ";
  "            Answer:";
  "            " ].

(** [chunk['metadata'].get('url')] when it is a non-empty text. *)
Definition hit_url (chunk : SearchHit) : option string :=
match hit_metadata chunk !! "url" with
| Some (MStr u) => if Py.is_empty u then None else Some u
| _ => None
end.

(** [list(set([chunk['metadata'].get('url', '') for chunk in chunks
    if chunk['metadata'].get('url')]))]: the distinct urls, in the order
    the set yields them. *)
Definition extract_sources (chunks : list SearchHit) : list string :=
elements (list_to_set (omap hit_url chunks) : gset string).

Definition rag_node (state : State) : M State :=
let user_message := get_str state "user_message" "" in
let chat_id := get_str state "chat_id" "" in
let chat_history := get_messages state "chat_history" in
try_except
  (let* relevant_chunks := VectorStore.search env user_message chat_id 5 in
   match relevant_chunks with
   | [] =>
       ret (<["response" := VStr no_information]>
            (<["current_step" := VStr "rag_completed"]>
            (<["retrieved_chunks" := VChunks []]> state)))
   | _ =>
       let context :=
         Py.join (Py.nl +:+ Py.nl) (map hit_content relevant_chunks) in
       let conversation_context := history_context 5 chat_history in
       let* response :=
         llm_ainvoke (response_prompt conversation_context context user_message) in
       let sources := extract_sources relevant_chunks in
       ret (<["current_step" := VStr "rag_completed"]>
            (<["sources" := VStrs sources]>
            (<["response" := VStr response]>
            (<["retrieved_chunks" := VChunks relevant_chunks]> state))))
   end)
  (λ e,
   ret (<["current_step" := VStr "rag_completed"]>
        (<["sources" := VStrs []]>
        (<["response" := VStr ("Error retrieving information: " +:+ e)]>
         state)))).

(** The filter of the code stage on one retrieved chunk. *)
Definition code_relevant (chunk : SearchHit) : bool :=
bool_decide (hit_metadata chunk !! "chunk_type" = Some (MStr "code"))
|| Py.contains "code" (Py.lower (hit_content chunk))
|| Py.contains Py.fence (hit_content chunk).

Definition code_prompt (code_context user_message : string) : string :=
lines [
  "";
  "            You are a technical assistant specializing in code analysis and explanation.";
  "            ";
  "            Code Context:";
  "            " +:+ code_context;
  "            ";
  "            User Question: " +:+ user_message;
  "            ";
  "            Please provide a detailed explanation of the code, including:";
  "            1. What the code does";
  "            2. How it works";
  "            3. Any important patterns or concepts";
  "            4. Examples if relevant";
  "            ";
  "            Format code blocks properly with markdown syntax highlighting.";
  "            " ].

Definition code_analysis_node (state : State) : M State :=
let user_message := get_str state "user_message" "" in
let chat_id := get_str state "chat_id" "" in
try_except
  (let* code_chunks := VectorStore.search env user_message chat_id 10 in
   let code_relevant_chunks := List.filter code_relevant code_chunks in
   match code_relevant_chunks with
   | [] => rag_node state
   | _ =>
       let code_context :=
         Py.join (Py.nl +:+ Py.nl) (map hit_content code_relevant_chunks) in
       let* response := llm_ainvoke (code_prompt code_context user_message) in
       let sources := extract_sources code_relevant_chunks in
       ret (<["current_step" := VStr "code_analysis_completed"]>
            (<["sources" := VStrs sources]>
            (<["response" := VStr response]>
            (<["retrieved_chunks" := VChunks code_relevant_chunks]> state))))
   end)
  (λ e, rag_node state).

Definition clarification_prompt (user_message : string) : string :=
lines [
  "";
  "        The user's question seems unclear or ambiguous:";
  "        ";
  "        User Question: " +:+ user_message;
  "        ";
  "        Please ask for clarification to better understand what they're looking for.";
  "        Be specific about what additional information would help you provide a better answer.";
  "        " ].

Definition clarification_fallback : string :=
"I'm not sure I understand your question. Could you please rephrase it or provide more details?".

Definition clarification_node (state : State) : M State :=
let user_message := get_str state "user_message" "" in
try_except
  (let* response := llm_ainvoke (clarification_prompt user_message) in
   ret (<["current_step" := VStr "clarification_requested"]>
        (<["sources" := VStrs []]>
        (<["response" := VStr response]> state))))
  (λ e,
   ret (<["current_step" := VStr "clarification_requested"]>
        (<["sources" := VStrs []]>
        (<["response" := VStr clarification_fallback]> state)))).

(** The transformation of the formatting stage on the response text. *)
Definition format_response (response : string) : string :=
if Py.contains Py.fence response
then Py.re_sub_fence response
else response.

Definition code_formatting_node (state : State) : M State :=
let response := get_str state "response" "" in
let formatted_response := format_response response in
ret (<["current_step" := VStr "code_formatted"]>
     (<["response" := VStr formatted_response]> state)).

Definition memory_node (state : State) : M State :=
let chat_history := get_messages state "chat_history" in
let user_message := get_str state "user_message" "" in
let response := get_str state "response" "" in
let updated_memory : gmap string Value :=
  <["current_step" := VStr "memory_updated"]>
  (<["conversation_length" := VInt (Z.of_nat (length chat_history) + 2)]>
  (<["last_assistant_response" := VStr response]>
  (<["last_user_message" := VStr user_message]> ∅))) in
ret (<["memory" := VDict updated_memory]> state).

End Nodes.
End GraphNodes.

(** ** The graph and its entry point: [app/graph/agent_graph.py] *)

(** What [process_message] returns: [{'response', 'sources', 'metadata'}]. *)
Record Reply := mkReply {
  response : string;
  sources : list string;
  metadata : gmap string Value
}.

Module AgentGraph.
Section Graph.
Context (env : Env).

Definition _route_based_on_intent (state : State) : string :=
get_str state "next_node" "rag_node".

(** The branch after [conditional_router]: the value of the routing
    function picks the target through the table given to
    [add_conditional_edges]; a value outside the table is an error of the
    graph run. *)
Definition conditional_edges (state : State) : M State :=
let next_node := _route_based_on_intent state in
if bool_decide (next_node = "rag_node") then
  GraphNodes.rag_node env state
else if bool_decide (next_node = "code_analysis_node") then
  GraphNodes.code_analysis_node env state
else if bool_decide (next_node = "clarification_node") then
  GraphNodes.clarification_node env state
else raise ("unknown branch: " +:+ next_node).

(** The compiled workflow of [_build_graph], run on an initial state: the
    entry point, then the edges in order; each stage receives the state
    the previous one returned. *)
Definition _build_graph (initial_state : State) : M State :=
let* state := GraphNodes.input_node initial_state in
let* state := GraphNodes.intent_analysis_node env state in
let* state := GraphNodes.conditional_router state in
let* state := conditional_edges state in
let* state := GraphNodes.code_formatting_node state in
GraphNodes.memory_node state.

Definition initial_state (message chat_id : string)
  (chat_history : list ChatMessage) : State :=
<["current_step" := VStr "started"]>
(<["chat_history" := VMessages chat_history]>
(<["chat_id" := VStr chat_id]>
(<["message" := VStr message]> ∅))).

(** [process_message] over the graph object [self.graph]. *)
Definition process_message_on (graph : State → M State)
  (message chat_id : string) (chat_history : list ChatMessage) : M Reply :=
try_except
  (let* result := graph (initial_state message chat_id chat_history) in
   let final_state := get_dict result "memory" in
   ret {| response := get_str final_state "response" "No response generated";
          sources := get_strs final_state "sources";
          metadata :=
            <["retrieved_chunks_count" :=
                VInt (Z.of_nat (length (get_chunks final_state "retrieved_chunks")))]>
            (<["current_step" := VStr (get_str final_state "current_step" "unknown")]>
            (<["intent" := VStr (get_str final_state "intent" "unknown")]> ∅)) |})
  (λ e,
   ret {| response := "Error processing your message: " +:+ e;
          sources := [];
          metadata := <["error" := VStr e]> ∅ |}).

(** [self.graph = self._build_graph()] *)
Definition process_message : string → string → list ChatMessage → M Reply :=
process_message_on _build_graph.

End Graph.
End AgentGraph.

(** ** The chat service: [app/services/chat_service.py] *)

(** A row of the table of messages.  The timestamp is the reading of the
    database clock when the row was added. *)
Record MessageRow := mkMessageRow {
  mr_chat_id : string;
  mr_role : string;
  mr_content : string;
  mr_timestamp : string;
  mr_sources : option (list string)
}.

(** The tables and collections of [Store] together with the table of
    messages. *)
Record Backend := mkBackend {
  tables : Store;
  chat_messages : list MessageRow
}.

(** [ChatResponse] of [app/models/api.py]. *)
Record ChatResponse := mkChatResponse {
  cr_chat_id : string;
  cr_response : string;
  cr_sources : list string;
  cr_metadata : option (gmap string Value)
}.

Module ChatService.
Section Service.
Context (env : Env).

(** [ORDER BY timestamp ASC] as the database answers it. *)
Variable order_by_timestamp : list MessageRow → list MessageRow.
(** [client.delete_collection] of the vector store: [Some e] when it
    raises. *)
Variable delete_collection_error : string → option string.

(** The message object the stages of the graph read [role] and [content]
    of. *)
Definition as_message (row : MessageRow) : ChatMessage :=
{| role := mr_role row;
   content := mr_content row;
   timestamp := mr_timestamp row |}.

Definition _get_chat_history (chat_id : string) (db : Backend) : list MessageRow :=
order_by_timestamp
  (List.filter (λ row, bool_decide (mr_chat_id row = chat_id)) (chat_messages db)).

(** [db.add(row); db.commit()] on the table of messages. *)
Definition add_message (db : Backend) (row : MessageRow) : Backend :=
{| tables := tables db; chat_messages := chat_messages db ++ [row] |}.

Definition session_not_found : string :=
"Error: Chat session not found. Please process documentation first.".
Definition still_processing : string :=
"Error: Documentation is still being processed. Please wait.".

(** [process_message]; [user_time] and [assistant_time] are the readings
    of the database clock at its two inserts.  The database session is
    taken to succeed, so the only exception the outer [except] can meet is
    one of the agent. *)
Definition process_message (chat_id message user_time assistant_time : string)
  (db : Backend) (t : Trace) : ChatResponse * Backend * Trace :=
match chat_sessions (tables db) !! chat_id with
| None =>
    ({| cr_chat_id := chat_id;
        cr_response := session_not_found;
        cr_sources := [];
        cr_metadata := None |}, db, t)
| Some session =>
    if negb (bool_decide (cs_status session = "completed")) then
      ({| cr_chat_id := chat_id;
          cr_response := still_processing;
          cr_sources := [];
          cr_metadata := None |}, db, t)
    else
      let user_message :=
        {| mr_chat_id := chat_id;
           mr_role := "user";
           mr_content := message;
           mr_timestamp := user_time;
           mr_sources := None |} in
      let db := add_message db user_message in
      let chat_history := _get_chat_history chat_id db in
      match AgentGraph.process_message env message chat_id
              (map as_message chat_history) t with
      | (Ok agent_response, t) =>
          let assistant_message :=
            {| mr_chat_id := chat_id;
               mr_role := "assistant";
               mr_content := response agent_response;
               mr_timestamp := assistant_time;
               mr_sources := Some (sources agent_response) |} in
          let db := add_message db assistant_message in
          ({| cr_chat_id := chat_id;
              cr_response := response agent_response;
              cr_sources := sources agent_response;
              cr_metadata := Some (metadata agent_response) |}, db, t)
      | (Raise e, t) =>
          ({| cr_chat_id := chat_id;
              cr_response := "Error processing your message: " +:+ e;
              cr_sources := [];
              cr_metadata := None |}, db, t)
      end
end.

(** [VectorStore.delete_chat_data]: a failure of the store is logged and
    swallowed. *)
Definition delete_chat_data (chat_id : string) (st : Store) : Store :=
let collection_name := "chat_" +:+ chat_id in
match delete_collection_error collection_name with
| None =>
    {| chat_sessions := chat_sessions st;
       document_chunks := document_chunks st;
       collections := delete collection_name (collections st) |}
| Some _ => st
end.

(** [delete_chat]: the rows of the two tables it names, then the data of
    the vector store. *)
Definition delete_chat (chat_id : string) (db : Backend) : bool * Backend :=
let messages :=
  List.filter (λ row, negb (bool_decide (mr_chat_id row = chat_id)))
              (chat_messages db) in
let st := tables db in
let st :=
  {| chat_sessions := delete chat_id (chat_sessions st);
     document_chunks := document_chunks st;
     collections := collections st |} in
let st := delete_chat_data chat_id st in
(true, {| tables := st; chat_messages := messages |}).

End Service.
End ChatService.

(** ** The endpoint that deletes a chat: [app/main.py] *)

(** An answer of an endpoint: a body, or an [HTTPException]. *)
Inductive HttpResult (A : Type) :=
  | Http200 (body : A)
  | HttpError (status_code : Z) (detail : string).
Arguments Http200 {A} body.
Arguments HttpError {A} status_code detail.

Module Main.
Section Endpoints.
Variable delete_collection_error : string → option string.

Definition delete_chat (chat_id : string) (db : Backend)
  : HttpResult string * Backend :=
let '(success, db) :=
  ChatService.delete_chat delete_collection_error chat_id db in
if negb success then
  (HttpError 404 ("Chat session with ID " +:+ chat_id +:+ " not found"), db)
else
  (Http200 ("Chat session " +:+ chat_id +:+ " deleted successfully"), db).

End Endpoints.
End Main.

(** The stages by name, as the graph registers them. *)
Inductive Stage :=
  | InputStage
  | IntentAnalysisStage
  | RouterStage
  | GeneralRetrievalStage
  | CodeAnalysisStage
  | ClarificationStage
  | FormattingStage
  | MemoryStage.

(** The stage function registered under each name. *)
Definition run_stage (env : Env) (stage : Stage) : State → M State :=
  match stage with
  | InputStage => GraphNodes.input_node
  | IntentAnalysisStage => GraphNodes.intent_analysis_node env
  | RouterStage => GraphNodes.conditional_router
  | GeneralRetrievalStage => GraphNodes.rag_node env
  | CodeAnalysisStage => GraphNodes.code_analysis_node env
  | ClarificationStage => GraphNodes.clarification_node env
  | FormattingStage => GraphNodes.code_formatting_node
  | MemoryStage => GraphNodes.memory_node
  end.

(** * Vocabulary of the properties *)

(** All characters of [w] are word characters. *)
Fixpoint all_word (w : string) : bool :=
  match w with
  | "" => true
  | String c r => Py.isword c && all_word r
  end.

(** The tag the replacement writes. *)
Definition tag (w : string) : string := if Py.is_empty w then "text" else w.

(** No fence in [s], at any position, lacks its tag. *)
Fixpoint all_tagged (s : string) : Prop :=
  match s with
  | "" => True
  | String c r =>
      (∀ rest, Py.match_fence s ≠ Some ("", rest)) ∧ all_tagged r
  end.



(** The paragraphs of a text, in the words of the specification: its
    blank-line-delimited blocks, trimmed, without the empty ones. *)
Definition paragraphs (text : string) : list string :=
  List.filter (λ p, negb (Py.is_empty p)) (map Py.strip (Py.split_nn text)).

(** Paragraphs in a row, each closed by a blank line. *)
Definition paragraphs_text (ps : list string) : string :=
  foldr (λ p acc, p +:+ DocumentProcessor.nlnl +:+ acc) "" ps.

(** The text of a buffer: a seed, a blank line, and paragraphs. *)
Definition seeded (seed : string) (ps : list string) : string :=
  seed +:+ DocumentProcessor.nlnl +:+ paragraphs_text ps.






(** A chunk of the section loop: one [section] chunk of a section that
    fits, or a chunk of the splitter run on a section that does not. *)
Definition from_section (max_chunk_size : Z) (uuid4 : nat → string)
    (url : string) (secs : list Section_) (c : Chunk) : Prop :=
  ∃ section, section ∈ secs ∧
    ((Py.len (sec_content section) ≤ max_chunk_size
      ∧ ∃ uid, c = DocumentProcessor.section_chunk uid url section)
     ∨ (max_chunk_size < Py.len (sec_content section)
        ∧ ∃ n0, c ∈ DocumentProcessor._split_text_intelligently max_chunk_size
                       uuid4 n0 (sec_content section) (sec_title section) url
                       (sec_id section) (sec_level section))).

(** A chunk of the loop over the code blocks. *)
Definition from_code_block (url : string) (blocks : list CodeBlock) (c : Chunk) : Prop :=
  ∃ code_block uid, code_block ∈ blocks
    ∧ c = DocumentProcessor.code_chunk uid url code_block.

(** The seed of the [i]-th chunk of a section: the title, then the title
    marked as continued. *)
Definition seed_at (title_ : string) (i : nat) : string :=
  match i with
  | O => title_
  | S _ => title_ +:+ DocumentProcessor.continued
  end.

(** The [section_part] chunks of runs of paragraphs, the [i]-th of them
    with the identifier drawn after [n0 + i] others. *)
Definition part_chunks (uuid4 : nat → string) (n0 : nat)
    (title_ url section_id : string) (level : Z)
    (runs : list (list string)) : list Chunk :=
  imap (λ i run,
          DocumentProcessor.section_part_chunk (uuid4 (n0 + i)%nat)
            (Py.strip (seeded (seed_at title_ i) run))
            url title_ section_id level) runs.

(** The row of the chunk table written for a chunk of a chat. *)
Definition chunk_row (chat_id : string) (chunk : Chunk) : DocumentChunk :=
  {| dc_chat_id := chat_id;
     dc_chunk_id := chunk_id chunk;
     dc_content := chunk_content chunk;
     dc_metadata := chunk_metadata chunk |}.

(** A change of the store that stays within one chat: the session rows
    of other chats and the collections of other chats are as before, the
    chunk table only gained rows of this chat, and the session row of the
    chat is there exactly when it was, with its url. *)
Definition within_chat (chat_id : string) (st st' : Store) : Prop :=
  (∀ other, other ≠ chat_id →
     chat_sessions st' !! other = chat_sessions st !! other)
  ∧ (∀ name, name ≠ "chat_" +:+ chat_id →
       collections st' !! name = collections st !! name)
  ∧ (∃ rows, document_chunks st' = document_chunks st ++ rows
             ∧ Forall (λ row, dc_chat_id row = chat_id) rows)
  ∧ (chat_sessions st !! chat_id = None → chat_sessions st' !! chat_id = None)
  ∧ (∀ session, chat_sessions st !! chat_id = Some session →
       ∃ session', chat_sessions st' !! chat_id = Some session'
                   ∧ cs_url session' = cs_url session).

(** What [memory_node] stores under [memory]. *)
Definition updated_memory (state : State) : gmap string Value :=
  <["current_step" := VStr "memory_updated"]>
  (<["conversation_length" :=
       VInt (Z.of_nat (length (get_messages state "chat_history")) + 2)]>
  (<["last_assistant_response" := VStr (get_str state "response" "")]>
  (<["last_user_message" := VStr (get_str state "user_message" "")]> ∅))).

(** The reply [process_message] builds from that dictionary. *)
Definition memory_reply : Reply :=
  {| response := "No response generated";
     sources := [];
     metadata :=
       <["retrieved_chunks_count" := VInt 0]>
       (<["current_step" := VStr "memory_updated"]>
       (<["intent" := VStr "unknown"]> ∅)) |}.


(** The state a run ended with (the empty state when it raised). *)
Definition final_state_of (run : Result State * Trace) : State :=
  match run with
  | (Ok s, _) => s
  | (Raise _, _) => ∅
  end.

(** How often the index was queried in a trace. *)
Definition index_queries (t : Trace) : nat :=
  length (List.filter (λ ev, match ev with EvQuery _ _ _ _ => true | _ => false end) t).

(** The keys each stage writes in the state it returns. *)
Definition written_by (stage : Stage) : list string :=
  match stage with
  | InputStage => ["user_message"; "current_step"]
  | IntentAnalysisStage => ["intent"; "current_step"]
  | RouterStage => ["next_node"; "current_step"]
  | GeneralRetrievalStage | CodeAnalysisStage =>
      ["retrieved_chunks"; "response"; "sources"; "current_step"]
  | ClarificationStage => ["response"; "sources"; "current_step"]
  | FormattingStage => ["response"; "current_step"]
  | MemoryStage => ["memory"]
  end.

(** The label the intent stage settles on for an outcome of the classifier
    call. *)
Definition settled_intent (outcome : Result string) : string :=
  match outcome with
  | Ok text =>
      let label := Py.upper (Py.strip text) in
      if bool_decide (label ∈ GraphNodes.valid_intents) then label
      else "GENERAL_QUESTION"
  | Raise _ => "GENERAL_QUESTION"
  end.

(** An index query of a run for [chat_id] and [message]: it goes to the
    collection of that chat, with the message as the query text, and asks
    for 5 or 10 results. *)
Definition query_within (chat_id message : string) (ev : Event) : Prop :=
  match ev with
  | EvQuery collection query n_results _ =>
      collection = "chat_" +:+ chat_id ∧ query = message
      ∧ (n_results = 5 ∨ n_results = 10)%nat
  | EvLlm _ _ => True
  end.

(** * Sample inputs *)

(** The state [process_message] starts a run with. *)
Definition sample_state : State :=
  AgentGraph.initial_state "How do I send a GET request?" "chat-1" [].

(** A model that answers with a label, over an empty index. *)
Definition quiet_env : Env :=
  {| llm := λ _ _, Ok "GENERAL_QUESTION";
     chroma_query := λ _ _ _ _, Ok [] |}.



(** Two retrieved chunks: prose, and a code block. *)
Definition prose_hit : SearchHit :=
  {| hit_content := "Sessions keep cookies across requests.";
     hit_metadata :=
       <["url" := MStr "https://docs.example.org/requests"]>
       (<["chunk_type" := MStr "section"]> ∅);
     hit_distance := Some 12 |}.

Definition snippet_hit : SearchHit :=
  {| hit_content := "Code Block (python):";
     hit_metadata :=
       <["url" := MStr "https://docs.example.org/requests"]>
       (<["chunk_type" := MStr "code"]> ∅);
     hit_distance := Some 7 |}.

(** An index with prose only, and a model that answers. *)
Definition prose_env : Env :=
  {| llm := λ _ _, Ok "CODE_QUESTION";
     chroma_query := λ _ _ _ _, Ok [prose_hit] |}.

(** An index with a code chunk, and a model that is down. *)
Definition down_env : Env :=
  {| llm := λ _ _, Raise "Connection error.";
     chroma_query := λ _ _ _ _, Ok [snippet_hit] |}.

(** A model that classifies the first prompt and answers the next one, over
    an index that holds one prose chunk. *)
Definition answering_env : Env :=
  {| llm := λ t _,
       match t with
       | [] => Ok "GENERAL_QUESTION"
       | _ => Ok "Call requests.get with the url."
       end;
     chroma_query := λ _ _ _ _, Ok [prose_hit] |}.


(** A page with empty title, no sections and no code blocks. *)
Definition empty_page : PageContent :=
  {| title := ""; sections := []; code_blocks := [] |}.

(** A store in which the session of the chat was created, as the endpoint
    does before it starts the ingestion. *)
Definition pending_store : Store :=
  {| chat_sessions :=
       <["chat-1" := {| cs_url := "https://docs.example.org/empty";
                        cs_status := "pending";
                        cs_progress := 0;
                        cs_error_message := None |}]> ∅;
     document_chunks := [];
     collections := ∅ |}.

(** A page with a section that fits, a section that does not, and a code
    block. *)
Definition install_section : Section_ :=
  {| sec_title := "Install";
     sec_level := 2;
     sec_content := "Run pip install requests in a terminal.";
     sec_id := "install" |}.

Definition sessions_section : Section_ :=
  {| sec_title := "Sessions";
     sec_level := 2;
     sec_content :=
       "A session keeps cookies." +:+ DocumentProcessor.nlnl
       +:+ "  It also pools connections. " +:+ DocumentProcessor.nlnl
       +:+ DocumentProcessor.nlnl +:+ "Close it when done.";
     sec_id := "sessions" |}.

Definition session_code : CodeBlock :=
  {| cb_content := "s = Session()"; cb_language := "python"; cb_id := "code_0" |}.

Definition guide_page : PageContent :=
  {| title := "Requests";
     sections := [install_section; sessions_section];
     code_blocks := [session_code] |}.

Definition guide_url : string := "https://docs.example.org/requests".

(** The identifiers: ["0"], ["1"], ... *)
Definition digit_ids (n : nat) : string := String (ascii_of_nat (48 + n)) "".

Definition guide_chunks : list Chunk :=
  DocumentProcessor._create_intelligent_chunks 40 digit_ids guide_page guide_url.

(** An index with a prose chunk and a code chunk, and a model that
    answers. *)
Definition snippet_env : Env :=
  {| llm := λ _ _, Ok "The block creates a session.";
     chroma_query := λ _ _ _ _, Ok [prose_hit; snippet_hit] |}.



(** A backend in which the session of the chat is still pending. *)
Definition pending_backend : Backend :=
  {| tables := pending_store; chat_messages := [] |}.

(** * Properties *)

(** ** Running the monad *)

Ltac run_m :=
  unfold bind, try_except, ret, raise, GraphNodes.llm_ainvoke,
    VectorStore.search in *; simpl in *.

Lemma dom_insert_mono (s s' : State) (k : string) (v : Value) :
  dom s ⊆ dom s' → dom s ⊆ dom (<[k := v]> s').
Proof. rewrite dom_insert_L. set_solver. Qed.

Create HintDb keys.
#[local] Hint Resolve dom_insert_mono : keys.

(** ** Text *)





(** The text primitives on small inputs, as Python evaluates them. *)
Example split_nn_three_newlines :
  Py.split_nn ("a" +:+ Py.nl +:+ Py.nl +:+ Py.nl +:+ "b") = ["a"; Py.nl +:+ "b"].
Proof. reflexivity. Qed.

Example split_nn_trailing_blank_line :
  Py.split_nn ("a" +:+ Py.nl +:+ Py.nl) = ["a"; ""].
Proof. reflexivity. Qed.

Example strip_both_ends : Py.strip ("  a b " +:+ Py.nl) = "a b".
Proof. reflexivity. Qed.

Example upper_label : Py.upper (Py.strip " code_question ") = "CODE_QUESTION".
Proof. reflexivity. Qed.

Example contains_code : Py.contains "code" (Py.lower "Sample Code:") = true.
Proof. reflexivity. Qed.

Example last_three : Py.last_n 3 [1; 2; 3; 4; 5]%nat = [3; 4; 5]%nat.
Proof. reflexivity. Qed.

Example re_sub_fence_tags :
  Py.re_sub_fence ("x```" +:+ Py.nl +:+ "y```py" +:+ Py.nl +:+ "z```")
  = "x```text" +:+ Py.nl +:+ "y```py" +:+ Py.nl +:+ "z```".
Proof. reflexivity. Qed.

Example re_sub_fence_four_backticks :
  Py.re_sub_fence ("````" +:+ Py.nl) = "````text" +:+ Py.nl.
Proof. reflexivity. Qed.

(** ** The stages keep every key *)

Section StageKeys.
Context (env : Env).

Lemma rag_node_keys s t s' t' :
  GraphNodes.rag_node env s t = (Ok s', t') → dom s ⊆ dom s'.
Proof.
  unfold GraphNodes.rag_node. run_m.
  destruct (chroma_query env t _ _ _) as [[|h l]|e]; simpl;
    try destruct (llm env _ _); intros [= <- <-]; auto 10 with keys.
Qed.

Lemma code_analysis_node_keys s t s' t' :
  GraphNodes.code_analysis_node env s t = (Ok s', t') → dom s ⊆ dom s'.
Proof.
  unfold GraphNodes.code_analysis_node. run_m.
  destruct (chroma_query env t _ _ _) as [l|e]; simpl.
  - destruct (List.filter _ l) as [|h l'].
    + destruct (GraphNodes.rag_node env s _) as [[s1|e1] t1] eqn:E.
      * intros [= <- <-]. eauto using rag_node_keys.
      * eauto using rag_node_keys.
    + destruct (llm env _ _); simpl.
      * intros [= <- <-]; auto 10 with keys.
      * eauto using rag_node_keys.
  - destruct (GraphNodes.rag_node env s _) as [[s1|e1] t1] eqn:E.
    + intros [= <- <-]. eauto using rag_node_keys.
    + eauto using rag_node_keys.
Qed.

End StageKeys.

(** C9.  Whatever stage runs and whatever the state it receives, every key
    of the input state is a key of the state it returns. *)
Theorem stage_keeps_keys (env : Env) (stage : Stage) (s s' : State) (t t' : Trace) :
  run_stage env stage s t = (Ok s', t') → dom s ⊆ dom s'.
Proof.
  destruct stage; simpl.
  - unfold GraphNodes.input_node. run_m. intros [= <- <-]. auto with keys.
  - unfold GraphNodes.intent_analysis_node. run_m.
    destruct (llm env t _); simpl; intros [= <- <-]; auto with keys.
  - unfold GraphNodes.conditional_router. run_m.
    intros [= <- <-]. auto with keys.
  - apply rag_node_keys.
  - apply code_analysis_node_keys.
  - unfold GraphNodes.clarification_node. run_m.
    destruct (llm env t _); simpl; intros [= <- <-]; auto with keys.
  - unfold GraphNodes.code_formatting_node. run_m.
    intros [= <- <-]. auto with keys.
  - unfold GraphNodes.memory_node. run_m. intros [= <- <-]. auto with keys.
Qed.

Lemma stage_keeps_keys_witness :
  dom sample_state ⊆
  dom (<["current_step" := VStr "routed"]>
       (<["next_node" := VStr "rag_node"]> sample_state)).
Proof.
  apply (stage_keeps_keys quiet_env RouterStage sample_state _ [] []).
  reflexivity.
Defined.

(** No stage raises: each returns a state. *)
Lemma rag_node_returns (env : Env) (s : State) (t : Trace) :
  ∃ s' t', GraphNodes.rag_node env s t = (Ok s', t').
Proof.
  unfold GraphNodes.rag_node. run_m.
  destruct (chroma_query env t _ _ _) as [[|h l]|e]; simpl;
    try destruct (llm env _ _); simpl; eauto.
Qed.

Lemma stage_returns (env : Env) (stage : Stage) (s : State) (t : Trace) :
  ∃ s' t', run_stage env stage s t = (Ok s', t').
Proof.
  destruct stage; simpl; try apply rag_node_returns;
    unfold GraphNodes.input_node, GraphNodes.intent_analysis_node,
      GraphNodes.conditional_router, GraphNodes.code_analysis_node,
      GraphNodes.clarification_node, GraphNodes.code_formatting_node,
      GraphNodes.memory_node; run_m; eauto.
  - destruct (llm env t _); simpl; eauto.
  - destruct (chroma_query env t _ _ _) as [l|e]; simpl;
      [destruct (List.filter _ l) as [|h l']; [|destruct (llm env _ _); simpl]|];
      eauto using rag_node_returns;
      match goal with |- context [GraphNodes.rag_node env s ?t0] =>
        destruct (rag_node_returns env s t0) as (s' & t' & ->); eauto end.
  - destruct (llm env t _); simpl; eauto.
Qed.

(** ** Intent analysis *)



(** A label the classifier may answer with is kept, whatever its case and
    surrounding blanks. *)
Lemma intent_keeps_valid_label (env : Env) (s : State) (t : Trace) text :
  let prompt :=
    GraphNodes.intent_prompt
      (GraphNodes.history_context 3 (get_messages s "chat_history"))
      (get_str s "user_message" "") in
  llm env t prompt = Ok text →
  Py.upper (Py.strip text) ∈ GraphNodes.valid_intents →
  GraphNodes.intent_analysis_node env s t =
    (Ok (<["current_step" := VStr "intent_analyzed"]>
         (<["intent" := VStr (Py.upper (Py.strip text))]> s)),
     t ++ [EvLlm prompt (Ok text)]).
Proof.
  intros prompt E H. unfold GraphNodes.intent_analysis_node. run_m.
  fold prompt. rewrite E. simpl. rewrite bool_decide_eq_true_2 by done.
  reflexivity.
Qed.

(** ** The code stage delegates to general retrieval *)

(** C4.  Let the code stage run on a state [s].  If none of the chunks its
    top-10 query gives passes the code filter, or if some do and the model
    call on the code prompt raises, then the code stage returns what the
    general retrieval stage returns on the same [s], run from the
    interaction the code stage has had so far. *)
Theorem code_stage_delegates (env : Env) (s : State) (t : Trace) :
  let user_message := get_str s "user_message" "" in
  let collection := "chat_" +:+ get_str s "chat_id" "" in
  let found := chroma_query env t collection user_message 10 in
  let t1 := t ++ [EvQuery collection user_message 10 found] in
  let code_chunks := match found with Ok l => l | Raise _ => [] end in
  let code_relevant_chunks := List.filter GraphNodes.code_relevant code_chunks in
  let prompt :=
    GraphNodes.code_prompt
      (Py.join (Py.nl +:+ Py.nl) (map hit_content code_relevant_chunks))
      user_message in
  (code_relevant_chunks = [] →
     GraphNodes.code_analysis_node env s t = GraphNodes.rag_node env s t1)
  ∧ (∀ e, code_relevant_chunks ≠ [] → llm env t1 prompt = Raise e →
     GraphNodes.code_analysis_node env s t =
       GraphNodes.rag_node env s (t1 ++ [EvLlm prompt (Raise e)])).
Proof.
  intros user_message collection found t1 code_chunks code_relevant_chunks prompt.
  assert (Hrag : ∀ t0,
    (let (r, t') := GraphNodes.rag_node env s t0 in
     match r with
     | Ok a => (Ok a, t')
     | Raise _ => GraphNodes.rag_node env s t'
     end) = GraphNodes.rag_node env s t0).
  { intros t0. destruct (rag_node_returns env s t0) as (s' & t' & ->). done. }
  split.
  - intros Hnone. unfold GraphNodes.code_analysis_node. run_m.
    fold user_message collection found.
    subst code_relevant_chunks code_chunks t1.
    destruct found as [l|e]; simpl in *; [rewrite Hnone|]; apply Hrag.
  - intros e Hsome Hllm. unfold GraphNodes.code_analysis_node. run_m.
    fold user_message collection found.
    subst prompt code_relevant_chunks code_chunks t1.
    destruct found as [l|e']; simpl in *; [|done].
    destruct (List.filter GraphNodes.code_relevant l) as [|h l'] eqn:E; [done|].
    rewrite Hllm. reflexivity.
Qed.

Lemma code_stage_delegates_witness :
  (∃ t1, GraphNodes.code_analysis_node prose_env sample_state [] =
         GraphNodes.rag_node prose_env sample_state t1)
  ∧ (∃ t2, GraphNodes.code_analysis_node down_env sample_state [] =
           GraphNodes.rag_node down_env sample_state t2).
Proof.
  split; eexists.
  - apply (proj1 (code_stage_delegates prose_env sample_state [])).
    vm_compute. reflexivity.
  - apply (proj2 (code_stage_delegates down_env sample_state [])
             "Connection error.").
    + vm_compute. discriminate.
    + reflexivity.
Defined.

(** When the collaborators answer from the arguments of a call alone, the
    state the general retrieval stage returns does not depend on the
    interaction before it. *)
Lemma rag_node_same_state (env : Env) (s : State) (t1 t2 : Trace) :
  (∀ t1 t2 prompt, llm env t1 prompt = llm env t2 prompt) →
  (∀ t1 t2 c q k, chroma_query env t1 c q k = chroma_query env t2 c q k) →
  fst (GraphNodes.rag_node env s t1) = fst (GraphNodes.rag_node env s t2).
Proof.
  intros Hllm Hq. unfold GraphNodes.rag_node. run_m.
  rewrite (Hq t1 t2).
  destruct (chroma_query env t2 _ _ _) as [[|h l]|e]; simpl; try done.
  repeat match goal with |- context [llm env ?a ?p] =>
    lazymatch a with [] => fail | _ => rewrite (Hllm a []) end end.
  by destruct (llm env [] _).
Qed.

(** With such collaborators, when no retrieved chunk passes the code
    filter, the state the code stage returns is the state the general
    retrieval stage returns when it is run in its place. *)
Lemma code_stage_same_state (env : Env) (s : State) (t : Trace) :
  (∀ t1 t2 prompt, llm env t1 prompt = llm env t2 prompt) →
  (∀ t1 t2 c q k, chroma_query env t1 c q k = chroma_query env t2 c q k) →
  let user_message := get_str s "user_message" "" in
  let collection := "chat_" +:+ get_str s "chat_id" "" in
  let code_chunks :=
    match chroma_query env t collection user_message 10 with
    | Ok l => l
    | Raise _ => []
    end in
  List.filter GraphNodes.code_relevant code_chunks = [] →
  fst (GraphNodes.code_analysis_node env s t) = fst (GraphNodes.rag_node env s t).
Proof.
  intros Hllm Hq user_message collection code_chunks Hnone.
  unfold GraphNodes.code_analysis_node. run_m.
  fold user_message collection. subst code_chunks.
  destruct (chroma_query env t collection user_message 10) as [l|e];
    simpl in *; [rewrite Hnone|];
    match goal with |- context [GraphNodes.rag_node env s ?t0] =>
      destruct (rag_node_returns env s t0) as (s' & t' & E);
      rewrite E; simpl;
      by rewrite <- (rag_node_same_state env s t0 t Hllm Hq), E end.
Qed.

(** ** The entry point *)


(** With the graph of the repository as well. *)
Lemma process_message_returns (env : Env) (message chat_id : string)
    (chat_history : list ChatMessage) (t : Trace) :
  ∃ reply t',
    AgentGraph.process_message env message chat_id chat_history t
      = (Ok reply, t').
Proof.
  unfold AgentGraph.process_message, AgentGraph.process_message_on,
    try_except, bind, ret.
  destruct (AgentGraph._build_graph env _ t) as [[result|e] t1]; eauto.
Qed.




(** C1.  On the message below the graph runs to completion and its final
    state holds the generated answer, one source, the intent and one
    retrieved chunk; the reply of [process_message] has none of them: its
    response is the default text, its sources are empty, its intent is
    [unknown] and its chunk count is 0. *)
Theorem process_message_loses_the_answer :
  let message := "How do I send a GET request?" in
  let run := AgentGraph._build_graph answering_env
               (AgentGraph.initial_state message "chat-1" []) [] in
  (∃ sf t',
      run = (Ok sf, t')
      ∧ sf !! "response" = Some (VStr "Call requests.get with the url.")
      ∧ sf !! "sources" = Some (VStrs ["https://docs.example.org/requests"])
      ∧ sf !! "intent" = Some (VStr "GENERAL_QUESTION")
      ∧ sf !! "current_step" = Some (VStr "code_formatted")
      ∧ sf !! "retrieved_chunks" = Some (VChunks [prose_hit])
      ∧ AgentGraph.process_message answering_env message "chat-1" [] []
        = (Ok memory_reply, t'))
  ∧ response memory_reply = "No response generated"
  ∧ sources memory_reply = []
  ∧ metadata memory_reply !! "intent" = Some (VStr "unknown")
  ∧ metadata memory_reply !! "current_step" = Some (VStr "memory_updated")
  ∧ metadata memory_reply !! "retrieved_chunks_count" = Some (VInt 0).
Proof.
  intros message run. split; [|vm_compute; repeat split; reflexivity].
  exists (final_state_of run), (snd run).
  repeat split; vm_compute; reflexivity.
Qed.

(** ** General retrieval with nothing retrieved *)

(** When the top-5 query of the general retrieval stage gives no chunk (or
    fails, which [search] turns into no chunk), the stage returns the input
    state with the fixed response, an empty [retrieved_chunks], and no other
    key written; the query is the only call it makes. *)
Lemma rag_node_no_chunks (env : Env) (s : State) (t : Trace) :
  let user_message := get_str s "user_message" "" in
  let collection := "chat_" +:+ get_str s "chat_id" "" in
  let found := chroma_query env t collection user_message 5 in
  match found with Ok [] | Raise _ => True | Ok (_ :: _) => False end →
  GraphNodes.rag_node env s t =
    (Ok (<["response" := VStr GraphNodes.no_information]>
         (<["current_step" := VStr "rag_completed"]>
         (<["retrieved_chunks" := VChunks []]> s))),
     t ++ [EvQuery collection user_message 5 found])
  ∧ llm_calls (t ++ [EvQuery collection user_message 5 found]) = llm_calls t.
Proof.
  intros user_message collection found H. split.
  - unfold GraphNodes.rag_node. run_m. fold user_message collection found.
    destruct found as [[|h l]|e]; done.
  - unfold llm_calls. rewrite List.filter_app, length_app. simpl. lia.
Qed.

(** The fixed response has no code fence: formatting leaves it as it is. *)
Lemma format_no_information :
  GraphNodes.format_response GraphNodes.no_information
  = GraphNodes.no_information.
Proof. by vm_compute. Qed.

(** C3.  On the message below the classifier answers [GENERAL_QUESTION] and
    the index holds nothing.  The general retrieval stage makes the query
    and no model call, and the final state of the graph holds exactly the
    fixed response and no sources; the reply of [process_message] carries
    the default text instead of the fixed response (its sources are
    empty). *)
Theorem no_chunks_reply_is_not_the_fixed_message :
  let message := "How do I send a GET request?" in
  let init := AgentGraph.initial_state message "chat-1" [] in
  let intent_call :=
    EvLlm (GraphNodes.intent_prompt "" message) (Ok "GENERAL_QUESTION") in
  let query_call := EvQuery "chat_chat-1" message 5 (Ok []) in
  (∃ sf,
      AgentGraph._build_graph quiet_env init [] = (Ok sf, [intent_call; query_call])
      ∧ sf !! "response" = Some (VStr GraphNodes.no_information)
      ∧ sf !! "sources" = None
      ∧ llm_calls [intent_call; query_call] = llm_calls [intent_call])
  ∧ (∃ reply t',
      AgentGraph.process_message quiet_env message "chat-1" [] []
        = (Ok reply, t')
      ∧ response reply = "No response generated"
      ∧ response reply ≠ GraphNodes.no_information
      ∧ sources reply = []).
Proof.
  intros message init intent_call query_call. split.
  - exists (final_state_of (AgentGraph._build_graph quiet_env init [])).
    repeat split; vm_compute; reflexivity.
  - exists memory_reply, [intent_call; query_call].
    repeat split; try (vm_compute; reflexivity).
    vm_compute. discriminate.
Qed.

(** ** Ingestion of a page without content *)

Section Ingestion.
Variable max_chunk_size : Z.
Variable uuid4 : nat → string.
Variable _fetch_url : string → option string.
Variable _extract_content : string → PageContent.
Variable collection_add_error : string → list Chunk → option string.

Lemma update_status_tables st chat_id status progress msg :
  let st' := DocumentProcessor._update_session_status st chat_id status progress msg in
  document_chunks st' = document_chunks st ∧ collections st' = collections st.
Proof.
  unfold DocumentProcessor._update_session_status.
  by destruct (chat_sessions st !! chat_id).
Qed.

Lemma update_status_missing st chat_id status progress msg :
  chat_sessions st !! chat_id = None →
  DocumentProcessor._update_session_status st chat_id status progress msg = st.
Proof.
  unfold DocumentProcessor._update_session_status. by intros ->.
Qed.

Lemma update_status_row st chat_id status progress msg session :
  chat_sessions st !! chat_id = Some session →
  chat_sessions
    (DocumentProcessor._update_session_status st chat_id status progress msg)
    !! chat_id
  = Some {| cs_url := cs_url session;
            cs_status := status;
            cs_progress := progress;
            cs_error_message :=
              match msg with
              | Some m => if Py.is_empty m then cs_error_message session else Some m
              | None => cs_error_message session
              end |}.
Proof.
  unfold DocumentProcessor._update_session_status. intros ->. simpl.
  by rewrite lookup_insert_eq.
Qed.

(** A page with empty title, no sections and no code blocks gives no
    chunk. *)
Lemma empty_page_no_chunks url :
  DocumentProcessor._create_intelligent_chunks max_chunk_size uuid4
    empty_page url = [].
Proof. reflexivity. Qed.

(** C8.  When the page fetched for a chat has empty title, no sections and
    no code blocks, the chunker gives no chunk, [process_documentation]
    answers [False], no row is added to the chunk table, no collection of
    the vector store changes, and the session row of the chat (when there
    is one) ends with status [failed], progress 0 and the message
    [No chunks created]. *)
Theorem empty_page_fails_ingestion (url chat_id html : string) (st : Store) :
  _fetch_url url = Some html →
  Py.is_empty html = false →
  _extract_content html = empty_page →
  DocumentProcessor._create_intelligent_chunks max_chunk_size uuid4
    (_extract_content html) url = []
  ∧ ∃ st',
      DocumentProcessor.process_documentation max_chunk_size uuid4
        _fetch_url _extract_content collection_add_error url chat_id st
        = (false, st')
      ∧ document_chunks st' = document_chunks st
      ∧ collections st' = collections st
      ∧ ∀ session, chat_sessions st !! chat_id = Some session →
          chat_sessions st' !! chat_id
          = Some {| cs_url := cs_url session;
                    cs_status := "failed";
                    cs_progress := 0;
                    cs_error_message := Some "No chunks created" |}.
Proof.
  intros Hfetch Hhtml Hpage. rewrite Hpage. split; [reflexivity|].
  unfold DocumentProcessor.process_documentation.
  rewrite Hfetch, Hhtml, Hpage, empty_page_no_chunks.
  eexists. split; [reflexivity|].
  split; [|split].
  - repeat (etrans; [apply update_status_tables|]). reflexivity.
  - repeat (etrans; [apply update_status_tables|]). reflexivity.
  - intros session Hs.
    pose proof (update_status_row st chat_id "processing" 10 None _ Hs) as H1.
    pose proof (update_status_row _ chat_id "processing" 30 None _ H1) as H2.
    pose proof (update_status_row _ chat_id "processing" 50 None _ H2) as H3.
    pose proof (update_status_row _ chat_id "failed" 0
                  (Some "No chunks created") _ H3) as H4.
    exact H4.
Qed.

End Ingestion.

Lemma empty_page_fails_ingestion_witness :
  ∃ st',
    DocumentProcessor.process_documentation 1000 (λ _, "0000")
      (λ _, Some "<html><title></title></html>") (λ _, empty_page)
      (λ _ _, None) "https://docs.example.org/empty" "chat-1" pending_store
      = (false, st')
    ∧ document_chunks st' = []
    ∧ chat_sessions st' !! "chat-1"
      = Some {| cs_url := "https://docs.example.org/empty";
                cs_status := "failed";
                cs_progress := 0;
                cs_error_message := Some "No chunks created" |}.
Proof.
  destruct (empty_page_fails_ingestion 1000 (λ _, "0000")
              (λ _, Some "<html><title></title></html>") (λ _, empty_page)
              (λ _ _, None) "https://docs.example.org/empty" "chat-1"
              "<html><title></title></html>" pending_store
              eq_refl eq_refl eq_refl)
    as (_ & st' & Hrun & Hrows & _ & Hsession).
  exists st'. split; [exact Hrun|]. split; [exact Hrows|].
  apply (Hsession {| cs_url := "https://docs.example.org/empty";
                     cs_status := "pending";
                     cs_progress := 0;
                     cs_error_message := None |}).
  vm_compute. reflexivity.
Defined.

(** ** Formatting is idempotent *)

Section Fences.
Import Py.

Lemma app_cons (c : ascii) (a b : string) :
  String c a +:+ b = String c (a +:+ b).
Proof. reflexivity. Qed.

Lemma app_empty_l (a : string) : "" +:+ a = a.
Proof. reflexivity. Qed.

Lemma app_empty_r (a : string) : a +:+ "" = a.
Proof. induction a as [|c a IH]; [done|]. by rewrite app_cons, IH. Qed.

Lemma app_assoc_str (a b c : string) : (a +:+ b) +:+ c = a +:+ b +:+ c.
Proof. induction a as [|x a IH]; [done|]. by rewrite !app_cons, IH. Qed.


Lemma word_span_spec s w r :
  word_span s = (w, r) →
  s = w +:+ r ∧ all_word w = true.
Proof.
  revert w r. induction s as [|c s IH]; intros w r; simpl.
  - by intros [= <- <-].
  - destruct (isword c) eqn:Hc.
    + destruct (word_span s) as [w' r'] eqn:E. intros [= <- <-].
      destruct (IH _ _ eq_refl) as [-> Hw]. simpl. by rewrite Hc, Hw.
    + by intros [= <- <-].
Qed.

Lemma word_span_app w c r :
  all_word w = true → isword c = false →
  word_span (w +:+ String c r) = (w, String c r).
Proof.
  intros Hw Hc. induction w as [|x w IH].
  - rewrite app_empty_l. simpl. by rewrite Hc.
  - cbn [all_word] in Hw. apply andb_true_iff in Hw as [Hx Hw].
    rewrite app_cons. cbn [word_span]. by rewrite Hx, IH.
Qed.

(** What a match at the head of [s] says about [s]. *)
Lemma match_fence_spec s w rest :
  match_fence s = Some (w, rest) →
  s = fence +:+ w +:+ nl +:+ rest ∧ all_word w = true.
Proof.
  destruct s as [|c1 [|c2 [|c3 s]]]; simpl; try done;
    repeat (case_match; try done).
  intros [= <- <-]. subst.
  match goal with H : word_span _ = _ |- _ =>
    apply word_span_spec in H as [-> Hw] end.
  done.
Qed.

Lemma match_fence_intro w rest :
  all_word w = true →
  match_fence (fence +:+ w +:+ nl +:+ rest) = Some (w, rest).
Proof.
  intros Hw. change (fence +:+ w +:+ nl +:+ rest)
    with (String "`" (String "`" (String "`" (w +:+ String "010" rest)))).
  cbn [match_fence]. by rewrite word_span_app.
Qed.

Lemma match_fence_not_backtick c r :
  c ≠ "`"%char → match_fence (String c r) = None.
Proof.
  intros Hc. unfold match_fence.
  destruct c as [[] [] [] [] [] [] [] []]; try done.
Qed.

Lemma re_sub_clause c r (x : {b | match_fence (String c r) = b}) :
  re_sub_fence_unfold_clause_2 c r x =
  match proj1_sig x with
  | Some (w, rest) => fence_repl w +:+ re_sub_fence rest
  | None => String c (re_sub_fence r)
  end.
Proof. by destruct x as [[[w rest]|] E]. Qed.

(** One step of the scan. *)
Lemma re_sub_cons c r :
  re_sub_fence (String c r) =
  match match_fence (String c r) with
  | Some (w, rest) => fence_repl w +:+ re_sub_fence rest
  | None => String c (re_sub_fence r)
  end.
Proof. simp re_sub_fence. by rewrite re_sub_clause. Qed.

Lemma tag_word w : all_word w = true → all_word (tag w) = true.
Proof. unfold tag. by destruct w. Qed.

Lemma tag_not_empty w : is_empty (tag w) = false.
Proof. unfold tag. by destruct w. Qed.

Lemma tag_tag w : tag (tag w) = tag w.
Proof. unfold tag. by destruct w. Qed.

Lemma fence_repl_tag w : fence_repl w = fence +:+ tag w +:+ nl.
Proof. reflexivity. Qed.

Lemma all_tagged_app p s : all_tagged (p +:+ s) → all_tagged s.
Proof.
  induction p as [|c p IH]; [done|]. rewrite app_cons. intros [_ H]. auto.
Qed.

Lemma string_length_ind (P : string → Prop) :
  (∀ s, (∀ s', (String.length s' < String.length s)%nat → P s') → P s) →
  ∀ s, P s.
Proof. intros H s. induction s using (induction_ltof1 _ String.length). auto. Qed.

(** A text whose fences all have tags is left as it is. *)
Lemma re_sub_tagged s : all_tagged s → re_sub_fence s = s.
Proof.
  induction s as [s IH] using string_length_ind.
  destruct s as [|c r]; [done|]. intros [Hhead Htail].
  rewrite re_sub_cons.
  destruct (match_fence (String c r)) as [[w rest]|] eqn:E.
  - pose proof (match_fence_length _ _ _ E) as Hlen.
    destruct (match_fence_spec _ _ _ E) as [Hs Hw].
    assert (Hne : is_empty w = false).
    { destruct w; [|done]. by destruct (Hhead rest). }
    rewrite IH; [| done |].
    + rewrite Hs. unfold fence_repl. rewrite Hne.
      by rewrite !app_assoc_str.
    + apply (all_tagged_app (fence +:+ w +:+ nl)).
      rewrite !app_assoc_str, <- Hs.
      split; [intros rest0; rewrite E; apply Hhead | done].
  - rewrite IH; [done | simpl; lia | done].
Qed.

(** How the output of the scan starts: with the first character of the
    input, followed either by the scan of the rest or, at a match, by
    two more backticks. *)
Lemma re_sub_head s c y :
  re_sub_fence s = String c y →
  ∃ r, s = String c r
       ∧ (y = re_sub_fence r ∨ ∃ y', y = String "`" (String "`" y')).
Proof.
  destruct s as [|a r]; [by simp re_sub_fence|]. rewrite re_sub_cons.
  destruct (match_fence (String a r)) as [[w rest]|] eqn:E.
  - destruct (match_fence_spec _ _ _ E) as [Hs _].
    rewrite Hs. unfold fence_repl, fence. rewrite !app_cons, !app_empty_l.
    intros [= <- <-]. eauto.
  - intros [= <- <-]. eauto.
Qed.

Lemma all_tagged_cons_other c s :
  c ≠ "`"%char → all_tagged s → all_tagged (String c s).
Proof.
  intros Hc Hs. split; [|done]. intros rest.
  by rewrite match_fence_not_backtick.
Qed.

Lemma isword_not_backtick c : isword c = true → c ≠ "`"%char.
Proof. by intros H ->. Qed.

Lemma all_tagged_word_app w s :
  all_word w = true → all_tagged s → all_tagged (w +:+ s).
Proof.
  intros Hw Hs. induction w as [|c w IH]; [done|].
  cbn [all_word] in Hw. apply andb_true_iff in Hw as [Hc Hw].
  rewrite app_cons. apply all_tagged_cons_other; auto using isword_not_backtick.
Qed.

(** A replacement in front of a tagged text gives a tagged text. *)
Lemma all_tagged_repl w s :
  all_word w = true → is_empty w = false → all_tagged s →
  all_tagged (fence +:+ w +:+ nl +:+ s).
Proof.
  intros Hw Hne Hs.
  assert (Hrest : all_tagged (w +:+ nl +:+ s)).
  { apply all_tagged_word_app; [done|].
    by apply all_tagged_cons_other. }
  destruct w as [|c w]; [done|].
  cbn [all_word] in Hw. apply andb_true_iff in Hw as [Hc Hw].
  pose proof (isword_not_backtick _ Hc) as Hc'.
  unfold fence. rewrite !app_cons, !app_empty_l. rewrite app_cons in Hrest.
  split; [|split; [|split; [|apply Hrest]]].
  - intros rest. change (String "`" (String "`" (String "`" (String c (w +:+ nl +:+ s)))))
      with (fence +:+ String c w +:+ nl +:+ s).
    rewrite match_fence_intro; [congruence|].
    cbn [all_word]. by rewrite Hc, Hw.
  - intros rest. cbn [match_fence].
    destruct c as [[] [] [] [] [] [] [] []]; done.
  - intros rest. cbn [match_fence].
    destruct c as [[] [] [] [] [] [] [] []]; done.
Qed.

(** The output of the scan has no fence without a tag. *)
Lemma re_sub_all_tagged s : all_tagged (re_sub_fence s).
Proof.
  induction s as [s IH] using string_length_ind.
  destruct s as [|c r]; [by simp re_sub_fence|].
  rewrite re_sub_cons.
  destruct (match_fence (String c r)) as [[w rest]|] eqn:E.
  - pose proof (match_fence_length _ _ _ E) as Hlen.
    destruct (match_fence_spec _ _ _ E) as [_ Hw].
    rewrite fence_repl_tag, !app_assoc_str.
    apply all_tagged_repl; auto using tag_word, tag_not_empty.
  - split; [|apply IH; simpl; lia].
    intros rest' Hm.
    apply match_fence_spec in Hm as [Hm _].
    unfold fence, nl in Hm. rewrite !app_cons, !app_empty_l in Hm.
    injection Hm as -> Hm.
    apply re_sub_head in Hm as (r1 & -> & [Hm | (y' & [=])]).
    symmetry in Hm.
    apply re_sub_head in Hm as (r2 & -> & [Hm | (y' & [=])]).
    symmetry in Hm.
    apply re_sub_head in Hm as (r3 & -> & _).
    done.
Qed.

Lemma re_sub_idempotent s : re_sub_fence (re_sub_fence s) = re_sub_fence s.
Proof. apply re_sub_tagged, re_sub_all_tagged. Qed.

End Fences.

(** C10.  Formatting a response that was already formatted changes
    nothing. *)
Theorem format_response_idempotent (response : string) :
  GraphNodes.format_response (GraphNodes.format_response response)
  = GraphNodes.format_response response.
Proof.
  unfold GraphNodes.format_response.
  destruct (Py.contains Py.fence response) eqn:E.
  - rewrite re_sub_idempotent. case_match; reflexivity.
  - by rewrite E.
Qed.

(** The stage as a whole: running it on its own output gives that output
    again. *)
Lemma code_formatting_node_idempotent (s s1 : State) (t t1 : Trace) :
  GraphNodes.code_formatting_node s t = (Ok s1, t1) →
  GraphNodes.code_formatting_node s1 t1 = (Ok s1, t1).
Proof.
  unfold GraphNodes.code_formatting_node, ret. intros [= <- <-].
  f_equal. f_equal.
  assert (Hresp : get_str
      (<["current_step" := VStr "code_formatted"]>
       (<["response" := VStr (GraphNodes.format_response (get_str s "response" ""))]> s))
      "response" ""
    = GraphNodes.format_response (get_str s "response" "")).
  { unfold get_str at 1. by simplify_map_eq. }
  rewrite Hresp.
  assert (Htwice : ∀ r,
    GraphNodes.format_response (GraphNodes.format_response r)
    = GraphNodes.format_response r).
  { intros r. unfold GraphNodes.format_response.
    destruct (Py.contains Py.fence r) eqn:E; [|by rewrite E].
    rewrite re_sub_idempotent. case_match; reflexivity. }
  rewrite Htwice.
  apply map_eq. intros k.
  destruct (decide (k = "current_step")) as [->|]; [by simplify_map_eq|].
  destruct (decide (k = "response")) as [->|]; by simplify_map_eq.
Qed.

(** ** Trimming *)

Section Trimming.
Import Py.
















End Trimming.

(** ** Where the chunks of a page come from *)

Section Origins.
Import Py.
Variable max_chunk_size : Z.
Variable uuid4 : nat → string.

Lemma fold_add_section url secs acc c :
  c ∈ fold_left (DocumentProcessor.add_section max_chunk_size uuid4 url) secs acc →
  c ∈ acc ∨ from_section max_chunk_size uuid4 url secs c.
Proof.
  revert acc. induction secs as [|section secs IH]; intros acc; simpl; [auto|].
  intros [Hacc | (s' & Hin & H)]%IH.
  - unfold DocumentProcessor.add_section in Hacc.
    destruct (len (sec_content section) <=? max_chunk_size) eqn:E;
      apply elem_of_app in Hacc as [?|Hnew]; auto; right;
      exists section; (split; [apply list_elem_of_here|]).
    + apply list_elem_of_singleton in Hnew. left. split; [lia|eauto].
    + right. split; [lia|eauto].
  - right. exists s'. split; [by apply list_elem_of_further|done].
Qed.

Lemma fold_add_code_block url blocks acc c :
  c ∈ fold_left (DocumentProcessor.add_code_block uuid4 url) blocks acc →
  c ∈ acc ∨ from_code_block url blocks c.
Proof.
  revert acc. induction blocks as [|cb blocks IH]; intros acc; simpl; [auto|].
  intros [Hacc | (cb' & uid & Hin & H)]%IH.
  - unfold DocumentProcessor.add_code_block in Hacc.
    apply elem_of_app in Hacc as [?|Hnew%list_elem_of_singleton]; auto.
    right. exists cb. eexists. split; [apply list_elem_of_here|done].
  - right. exists cb', uid. split; [by apply list_elem_of_further|done].
Qed.

(** Every chunk of a page is the title chunk, a chunk of a section, or
    the chunk of a code block. *)
Lemma chunk_origin content url c :
  c ∈ DocumentProcessor._create_intelligent_chunks max_chunk_size uuid4 content url →
  (is_empty (title content) = false
   ∧ ∃ uid, c = DocumentProcessor.title_chunk uid url (title content))
  ∨ from_section max_chunk_size uuid4 url (sections content) c
  ∨ from_code_block url (code_blocks content) c.
Proof.
  unfold DocumentProcessor._create_intelligent_chunks.
  intros [[Ht|Hs]%fold_add_section | Hc]%fold_add_code_block; auto.
  destruct (is_empty (title content)) eqn:E; simpl in Ht.
  - by apply elem_of_nil in Ht.
  - apply list_elem_of_singleton in Ht. left. eauto.
Qed.

End Origins.

(** ** The splitter keeps paragraphs whole *)

Section Splitter.
Import Py.
Variable max_chunk_size : Z.
Variable uuid4 : nat → string.

Lemma paragraphs_text_snoc ps p :
  paragraphs_text (ps ++ [p]) = paragraphs_text ps +:+ p +:+ DocumentProcessor.nlnl.
Proof.
  induction ps as [|q ps IH]; simpl.
  - by rewrite app_empty_r.
  - by rewrite IH, !app_assoc_str.
Qed.

Lemma seeded_snoc seed ps p :
  seeded seed (ps ++ [p]) = seeded seed ps +:+ p +:+ DocumentProcessor.nlnl.
Proof. unfold seeded. by rewrite paragraphs_text_snoc, !app_assoc_str. Qed.

Lemma seeded_nil seed : seeded seed [] = seed +:+ DocumentProcessor.nlnl.
Proof. unfold seeded. simpl. by rewrite app_empty_r. Qed.

Lemma flush_buffer title_ p :
  (title_ +:+ DocumentProcessor.continued +:+ DocumentProcessor.nlnl)
    +:+ p +:+ DocumentProcessor.nlnl
  = seeded (title_ +:+ DocumentProcessor.continued) [p].
Proof. unfold seeded. simpl. by rewrite app_empty_r, !app_assoc_str. Qed.







End Splitter.

Section ExplicitForm.
Import Py.











End ExplicitForm.


(** ** How long a chunk can be *)

Section Sizes.
Import Py.
Variable max_chunk_size : Z.
Variable uuid4 : nat → string.





Section Loop.
Variables (title_ url section_id : string) (level : Z) (n0 : nat) (L : Z).
Let B := Z.max max_chunk_size (len title_ + 14 + L).


End Loop.


End Sizes.





(** * Further properties of the pipeline *)

(** ** Each stage writes its own keys only *)

Ltac not_a_key :=
  let H := fresh in
  intros H; repeat (apply elem_of_cons in H as [H|H]; [discriminate H|]);
  by apply elem_of_nil in H.

Ltac other_keys Hk :=
  repeat (rewrite lookup_insert_ne;
          [|intros <-; apply Hk; repeat constructor]);
  try reflexivity.

Lemma rag_node_frame (env : Env) (s s' : State) (t t' : Trace) (k : string) :
  GraphNodes.rag_node env s t = (Ok s', t') →
  k ∉ written_by GeneralRetrievalStage → s' !! k = s !! k.
Proof.
  intros Hrun Hk. revert Hrun. unfold GraphNodes.rag_node. run_m.
  destruct (chroma_query env t _ _ _) as [[|h l]|e]; simpl;
    try destruct (llm env _ _); intros [= <- <-]; other_keys Hk.
Qed.

Lemma code_analysis_node_frame (env : Env) (s s' : State) (t t' : Trace) (k : string) :
  GraphNodes.code_analysis_node env s t = (Ok s', t') →
  k ∉ written_by CodeAnalysisStage → s' !! k = s !! k.
Proof.
  intros Hrun Hk. revert Hrun. unfold GraphNodes.code_analysis_node. run_m.
  destruct (chroma_query env t _ _ _) as [l|e]; simpl;
    [destruct (List.filter _ l) as [|h l']; [|destruct (llm env _ _); simpl]|];
    try (intros [= <- <-]; other_keys Hk);
    match goal with |- context [GraphNodes.rag_node env s ?t0] =>
      destruct (GraphNodes.rag_node env s t0) as [[s1|e1] t1] eqn:E;
      intros Hrun;
      first [ discriminate Hrun
            | exact (rag_node_frame env s s' t1 t' k Hrun Hk)
            | injection Hrun as <- <-;
              exact (rag_node_frame env s s1 t0 t1 k E Hk) ] end.
Qed.

Lemma clarification_node_frame (env : Env) (s s' : State) (t t' : Trace) (k : string) :
  GraphNodes.clarification_node env s t = (Ok s', t') →
  k ∉ written_by ClarificationStage → s' !! k = s !! k.
Proof.
  intros Hrun Hk. revert Hrun. unfold GraphNodes.clarification_node. run_m.
  destruct (llm env t _); simpl; intros [= <- <-]; other_keys Hk.
Qed.

(** X1.  The state a stage returns differs from the state it received at
    most on the keys that stage writes: input writes [user_message] and
    [current_step]; intent analysis [intent] and [current_step]; the router
    [next_node] and [current_step]; general and code retrieval
    [retrieved_chunks], [response], [sources] and [current_step];
    clarification [response], [sources] and [current_step]; formatting
    [response] and [current_step]; memory [memory]. *)
Theorem stage_writes_own_keys (env : Env) (stage : Stage) (s s' : State)
    (t t' : Trace) (k : string) :
  run_stage env stage s t = (Ok s', t') →
  k ∉ written_by stage →
  s' !! k = s !! k.
Proof.
  destruct stage; simpl; intros Hrun Hk;
    try exact (rag_node_frame env s s' t t' k Hrun Hk);
    try exact (code_analysis_node_frame env s s' t t' k Hrun Hk);
    try exact (clarification_node_frame env s s' t t' k Hrun Hk);
    revert Hrun;
    unfold GraphNodes.input_node, GraphNodes.intent_analysis_node,
      GraphNodes.conditional_router, GraphNodes.code_formatting_node,
      GraphNodes.memory_node; run_m.
  - intros [= <- <-]. other_keys Hk.
  - destruct (llm env t _); simpl; intros [= <- <-]; other_keys Hk.
  - intros [= <- <-]. other_keys Hk.
  - intros [= <- <-]. other_keys Hk.
  - intros [= <- <-]. other_keys Hk.
Qed.

Lemma stage_writes_own_keys_witness :
  (<["current_step" := VStr "routed"]>
   (<["next_node" := VStr "rag_node"]> sample_state)) !! "chat_id"
  = sample_state !! "chat_id".
Proof.
  apply (stage_writes_own_keys quiet_env RouterStage sample_state _ [] []).
  - reflexivity.
  - vm_compute. intros H.
    repeat (inversion H as [|? ? ? H']; clear H; rename H' into H).
Defined.


(** ** The graph as a whole *)

Lemma routing_map_values (intent v : string) :
  GraphNodes.routing_map !! intent = Some v →
  v = "rag_node" ∨ v = "code_analysis_node" ∨ v = "clarification_node".
Proof.
  unfold GraphNodes.routing_map. intros H.
  repeat (apply lookup_insert_Some in H as [[_ <-]|[_ H]]; [tauto|]).
  by rewrite lookup_empty in H.
Qed.

(** The target the router writes for a label. *)
Lemma routed_target (intent : string) :
  default "rag_node" (GraphNodes.routing_map !! intent)
  = if bool_decide (intent = "CODE_QUESTION") then "code_analysis_node"
    else if bool_decide (intent = "CLARIFICATION_NEEDED") then "clarification_node"
    else "rag_node".
Proof.
  unfold GraphNodes.routing_map.
  repeat case_bool_decide; subst; try done.
  destruct (decide (intent = "GENERAL_QUESTION")) as [->|]; [done|].
  destruct (decide (intent = "FOLLOW_UP")) as [->|]; [done|].
  by rewrite !lookup_insert_ne, lookup_empty by done.
Qed.

Lemma conditional_edges_target (env : Env) (s : State) (t : Trace) :
  let next_node := AgentGraph._route_based_on_intent s in
  (next_node = "rag_node" →
     AgentGraph.conditional_edges env s t = GraphNodes.rag_node env s t)
  ∧ (next_node = "code_analysis_node" →
     AgentGraph.conditional_edges env s t = GraphNodes.code_analysis_node env s t)
  ∧ (next_node = "clarification_node" →
     AgentGraph.conditional_edges env s t = GraphNodes.clarification_node env s t).
Proof.
  intros next_node. unfold AgentGraph.conditional_edges. fold next_node.
  repeat split; intros ->; by repeat case_bool_decide.
Qed.

(** What the intent stage returns, for every outcome of the classifier
    call. *)
Lemma intent_analysis_node_result (env : Env) (s : State) (t : Trace) :
  let prompt :=
    GraphNodes.intent_prompt
      (GraphNodes.history_context 3 (get_messages s "chat_history"))
      (get_str s "user_message" "") in
  let outcome := llm env t prompt in
  GraphNodes.intent_analysis_node env s t
  = (Ok (<["current_step" := VStr "intent_analyzed"]>
         (<["intent" := VStr (settled_intent outcome)]> s)),
     t ++ [EvLlm prompt outcome]).
Proof.
  intros prompt outcome. unfold GraphNodes.intent_analysis_node. run_m.
  fold prompt. fold outcome. by destruct outcome.
Qed.

(** The run up to the branch: the three stages before it return, and the
    state they give holds the settled label and its target. *)
Lemma run_to_branch (env : Env) (init : State) (t : Trace) :
  let s1 :=
    <["current_step" := VStr "input_received"]>
    (<["user_message" := default (VStr "") (init !! "message")]> init) in
  let prompt :=
    GraphNodes.intent_prompt
      (GraphNodes.history_context 3 (get_messages s1 "chat_history"))
      (get_str s1 "user_message" "") in
  let outcome := llm env t prompt in
  let intent := settled_intent outcome in
  let target := default "rag_node" (GraphNodes.routing_map !! intent) in
  let s3 :=
    <["current_step" := VStr "routed"]>
    (<["next_node" := VStr target]>
    (<["current_step" := VStr "intent_analyzed"]>
    (<["intent" := VStr intent]> s1))) in
  AgentGraph._build_graph env init t
  = (let* state := AgentGraph.conditional_edges env s3 in
     let* state := GraphNodes.code_formatting_node state in
     GraphNodes.memory_node state) (t ++ [EvLlm prompt outcome])
  ∧ AgentGraph._route_based_on_intent s3 = target.
Proof.
  intros s1 prompt outcome intent target s3. split.
  - unfold AgentGraph._build_graph.
    unfold bind at 1. unfold GraphNodes.input_node, ret. fold s1.
    unfold bind at 1. rewrite intent_analysis_node_result.
    fold prompt outcome intent.
    unfold bind at 1. unfold GraphNodes.conditional_router, ret.
    assert (Hs : get_str
      (<["current_step" := VStr "intent_analyzed"]>
       (<["intent" := VStr intent]> s1)) "intent" "GENERAL_QUESTION" = intent).
    { unfold get_str. by rewrite lookup_insert_ne, lookup_insert_eq. }
    rewrite Hs. reflexivity.
  - unfold AgentGraph._route_based_on_intent, get_str. subst s3.
    by rewrite lookup_insert_ne, lookup_insert_eq.
Qed.

Lemma code_analysis_node_returns (env : Env) (s : State) (t : Trace) :
  ∃ s' t', GraphNodes.code_analysis_node env s t = (Ok s', t').
Proof. apply (stage_returns env CodeAnalysisStage). Qed.

Lemma clarification_node_returns (env : Env) (s : State) (t : Trace) :
  ∃ s' t', GraphNodes.clarification_node env s t = (Ok s', t').
Proof. apply (stage_returns env ClarificationStage). Qed.

(** After the router the branch always has a target: it returns a state. *)
Lemma conditional_edges_returns (env : Env) (s : State) (t : Trace) (intent : string) :
  AgentGraph._route_based_on_intent s
    = default "rag_node" (GraphNodes.routing_map !! intent) →
  ∃ s' t', AgentGraph.conditional_edges env s t = (Ok s', t').
Proof.
  intros Hroute.
  destruct (conditional_edges_target env s t) as (Hrag & Hcode & Hclar).
  rewrite routed_target in Hroute. repeat case_bool_decide.
  - rewrite (Hcode Hroute). apply code_analysis_node_returns.
  - rewrite (Hclar Hroute). apply clarification_node_returns.
  - rewrite (Hrag Hroute). apply rag_node_returns.
Qed.






(** ** Calls a run makes *)

Lemma llm_calls_app (a b : Trace) : llm_calls (a ++ b) = (llm_calls a + llm_calls b)%nat.
Proof. unfold llm_calls. by rewrite List.filter_app, length_app. Qed.

Lemma index_queries_app (a b : Trace) :
  index_queries (a ++ b) = (index_queries a + index_queries b)%nat.
Proof. unfold index_queries. by rewrite List.filter_app, length_app. Qed.

Ltac count_calls :=
  eexists; split; [rewrite <- ?app_assoc; reflexivity|];
  cbn; lia.

Lemma rag_node_calls (env : Env) (s : State) (t t' : Trace) r :
  GraphNodes.rag_node env s t = (r, t') →
  ∃ new, t' = t ++ new
         ∧ (index_queries new = 1 ∧ llm_calls new ≤ 1)%nat.
Proof.
  unfold GraphNodes.rag_node. run_m.
  destruct (chroma_query env t _ _ _) as [[|h l]|e]; simpl;
    try destruct (llm env _ _); intros [= <- <-]; count_calls.
Qed.

Lemma clarification_node_calls (env : Env) (s : State) (t t' : Trace) r :
  GraphNodes.clarification_node env s t = (r, t') →
  ∃ new, t' = t ++ new
         ∧ (index_queries new = 0 ∧ llm_calls new = 1)%nat.
Proof.
  unfold GraphNodes.clarification_node. run_m.
  destruct (llm env t _); simpl; intros [= <- <-]; count_calls.
Qed.

Lemma code_analysis_node_calls (env : Env) (s : State) (t t' : Trace) r :
  GraphNodes.code_analysis_node env s t = (r, t') →
  ∃ new, t' = t ++ new
         ∧ (1 ≤ index_queries new ≤ 2 ∧ llm_calls new ≤ 2)%nat.
Proof.
  unfold GraphNodes.code_analysis_node. run_m.
  destruct (chroma_query env t _ _ _) as [l|e]; simpl;
    [destruct (List.filter _ l) as [|h l']; [|destruct (llm env _ _); simpl]|];
    try (intros [= <- <-]; count_calls);
    match goal with |- context [GraphNodes.rag_node env s ?t0] =>
      destruct (rag_node_returns env s t0) as (s1 & t1 & E);
      try rewrite E; intros Hrun;
      first [ injection Hrun as <- <- | rewrite E in Hrun; injection Hrun as <- <- ];
      apply rag_node_calls in E as (new & -> & Hq & Hl);
      eexists; (split; [rewrite <- ?app_assoc; reflexivity|]);
      rewrite ?index_queries_app, ?llm_calls_app; cbn; lia end.
Qed.

Lemma conditional_edges_calls (env : Env) (s : State) (t t' : Trace) r intent :
  AgentGraph._route_based_on_intent s
    = default "rag_node" (GraphNodes.routing_map !! intent) →
  AgentGraph.conditional_edges env s t = (r, t') →
  ∃ new, t' = t ++ new
         ∧ (index_queries new ≤ 2 ∧ llm_calls new ≤ 2)%nat.
Proof.
  intros Hroute E.
  destruct (conditional_edges_target env s t) as (Erag & Ecode & Eclar).
  rewrite routed_target in Hroute. repeat case_bool_decide.
  - rewrite (Ecode Hroute) in E.
    apply code_analysis_node_calls in E as (new & -> & ? & ?).
    exists new. split; [done|lia].
  - rewrite (Eclar Hroute) in E.
    apply clarification_node_calls in E as (new & -> & ? & ?).
    exists new. split; [done|lia].
  - rewrite (Erag Hroute) in E.
    apply rag_node_calls in E as (new & -> & ? & ?).
    exists new. split; [done|lia].
Qed.

(** X5.  A run of the graph only adds to the record of calls, and it adds
    at least one and at most three calls of the model, and at most two
    queries of the index. *)
Theorem graph_run_calls (env : Env) (init : State) (t t' : Trace) r :
  AgentGraph._build_graph env init t = (r, t') →
  ∃ new, t' = t ++ new
         ∧ (1 ≤ llm_calls new ≤ 3 ∧ index_queries new ≤ 2)%nat.
Proof.
  destruct (run_to_branch env init t) as [-> Hroute].
  unfold bind.
  match goal with |- context [AgentGraph.conditional_edges env ?s ?t0] =>
    destruct (AgentGraph.conditional_edges env s t0) as [[s4|e4] t4] eqn:E;
    destruct (conditional_edges_calls env s t0 _ _ _ Hroute E)
      as (new & -> & Hq & Hl) end;
    unfold GraphNodes.code_formatting_node, GraphNodes.memory_node, ret;
    intros [= <- <-];
    (eexists; split; [rewrite <- app_assoc; reflexivity|]);
    rewrite llm_calls_app, index_queries_app; cbn; lia.
Qed.

Lemma graph_run_calls_witness :
  ∃ new,
    snd (AgentGraph._build_graph down_env sample_state []) = [] ++ new
    ∧ (1 ≤ llm_calls new ≤ 3 ∧ index_queries new ≤ 2)%nat.
Proof.
  apply (graph_run_calls down_env sample_state []
           (snd (AgentGraph._build_graph down_env sample_state []))
           (fst (AgentGraph._build_graph down_env sample_state []))).
  by destruct (AgentGraph._build_graph down_env sample_state []).
Defined.


(** ** What a completed run returns *)

Lemma conditional_edges_frame (env : Env) (s s' : State) (t t' : Trace) (k : string) :
  AgentGraph.conditional_edges env s t = (Ok s', t') →
  k ∉ ["retrieved_chunks"; "response"; "sources"; "current_step"] →
  s' !! k = s !! k.
Proof.
  intros Hrun Hk. revert Hrun. unfold AgentGraph.conditional_edges.
  repeat case_bool_decide; intros Hrun.
  - by eapply rag_node_frame.
  - by eapply code_analysis_node_frame.
  - eapply clarification_node_frame; [done|].
    intros Hin. apply Hk. simpl in Hin. by apply list_elem_of_further.
  - done.
Qed.

Lemma initial_state_lookups (message chat_id : string)
    (chat_history : list ChatMessage) :
  let init := AgentGraph.initial_state message chat_id chat_history in
  init !! "message" = Some (VStr message)
  ∧ init !! "chat_id" = Some (VStr chat_id)
  ∧ init !! "chat_history" = Some (VMessages chat_history).
Proof.
  unfold AgentGraph.initial_state. repeat split.
Qed.

(** A run ends with a state: its outcome is the state read off it. *)
Lemma build_graph_shape (env : Env) (init : State) (t : Trace) :
  AgentGraph._build_graph env init t
  = (Ok (final_state_of (AgentGraph._build_graph env init t)),
     snd (AgentGraph._build_graph env init t)).
Proof.
  destruct (run_to_branch env init t) as [-> Hroute].
  unfold bind.
  match goal with |- context [AgentGraph.conditional_edges env ?s ?t0] =>
    destruct (conditional_edges_returns env s t0 _ Hroute) as (s4 & t4 & ->) end.
  reflexivity.
Qed.

(** X6.  The state a run started by [process_message] ends with still holds
    the message (also under [user_message]), the scope and the history it
    was started with; its step is [code_formatted]; and the summary under
    [memory] records that message, the response of this same state, and
    the length of the history plus two. *)
Theorem graph_final_state (env : Env) (message chat_id : string)
    (chat_history : list ChatMessage) (final : State) (t t' : Trace) :
  AgentGraph._build_graph env
    (AgentGraph.initial_state message chat_id chat_history) t = (Ok final, t') →
  final !! "message" = Some (VStr message)
  ∧ final !! "user_message" = Some (VStr message)
  ∧ final !! "chat_id" = Some (VStr chat_id)
  ∧ final !! "chat_history" = Some (VMessages chat_history)
  ∧ final !! "current_step" = Some (VStr "code_formatted")
  ∧ (∃ response, final !! "response" = Some (VStr response))
  ∧ final !! "memory"
    = Some (VDict
        (<["current_step" := VStr "memory_updated"]>
         (<["conversation_length" := VInt (Z.of_nat (length chat_history) + 2)]>
         (<["last_assistant_response" := VStr (get_str final "response" "")]>
         (<["last_user_message" := VStr message]> ∅))))).
Proof.
  intros Hrun.
  destruct (run_to_branch env
              (AgentGraph.initial_state message chat_id chat_history) t)
    as [Hgraph _].
  rewrite Hgraph in Hrun. clear Hgraph. revert Hrun. unfold bind.
  match goal with |- context [AgentGraph.conditional_edges env ?s ?t0] =>
    set (s3 := s);
    destruct (AgentGraph.conditional_edges env s3 t0) as [[s4|e4] t4] eqn:E;
    [|done] end.
  unfold GraphNodes.code_formatting_node, GraphNodes.memory_node, ret.
  intros [= <- <-].
  assert (Hframe : ∀ k,
    k ∉ ["retrieved_chunks"; "response"; "sources"; "current_step"] →
    s4 !! k = s3 !! k).
  { intros k Hk. eapply conditional_edges_frame; [exact E|exact Hk]. }
  destruct (initial_state_lookups message chat_id chat_history)
    as (Im & Ic & Ih).
  assert (Hm : s4 !! "message" = Some (VStr message)).
  { rewrite Hframe by not_a_key. subst s3.
    by rewrite !lookup_insert_ne by done. }
  assert (Hu : s4 !! "user_message" = Some (VStr message)).
  { rewrite Hframe by not_a_key. subst s3.
    rewrite !(lookup_insert_ne _ "current_step") by done.
    rewrite !(lookup_insert_ne _ "next_node") by done.
    rewrite !(lookup_insert_ne _ "current_step") by done.
    rewrite !(lookup_insert_ne _ "intent") by done.
    rewrite !(lookup_insert_ne _ "current_step") by done.
    by rewrite lookup_insert_eq, Im. }
  assert (Hc : s4 !! "chat_id" = Some (VStr chat_id)).
  { rewrite Hframe by not_a_key. subst s3.
    by rewrite !lookup_insert_ne by done. }
  assert (Hh : s4 !! "chat_history" = Some (VMessages chat_history)).
  { rewrite Hframe by not_a_key. subst s3.
    by rewrite !lookup_insert_ne by done. }
  clearbody s3. clear E Hframe.
  split; [by rewrite !lookup_insert_ne by done|].
  split; [by rewrite !lookup_insert_ne by done|].
  split; [by rewrite !lookup_insert_ne by done|].
  split; [by rewrite !lookup_insert_ne by done|].
  split; [by rewrite lookup_insert_ne, lookup_insert_eq by done|].
  split.
  { eexists. by rewrite !lookup_insert_ne, lookup_insert_eq by done. }
  rewrite lookup_insert_eq. unfold get_messages, get_str.
  rewrite !(lookup_insert_ne _ "memory") by done.
  rewrite !(lookup_insert_ne _ "current_step") by done.
  rewrite !lookup_insert_eq.
  rewrite !(lookup_insert_ne _ "response") by done.
  by rewrite Hu, Hh.
Qed.

Lemma graph_final_state_witness :
  final_state_of (AgentGraph._build_graph answering_env sample_state [])
    !! "user_message"
  = Some (VStr "How do I send a GET request?").
Proof.
  refine (proj1 (proj2 (graph_final_state answering_env
    "How do I send a GET request?" "chat-1" []
    (final_state_of (AgentGraph._build_graph answering_env sample_state []))
    [] (snd (AgentGraph._build_graph answering_env sample_state [])) _))).
  apply build_graph_shape.
Defined.


(** ** Formatting: what it changes and what it leaves *)

Section Untagged.
Import Py.

Lemma prefix_iff (p s : string) :
  String.prefix p s = true ↔ ∃ rest, s = p +:+ rest.
Proof.
  revert s. induction p as [|a p IH]; intros s.
  - split; [intros _; exists s; reflexivity|by destruct s].
  - change (∃ rest, s = String a p +:+ rest)
      with (∃ rest, s = String a (p +:+ rest)).
    destruct s as [|b s]; cbn [String.prefix].
    + split; [done|]. by intros [rest [=]].
    + destruct (ascii_dec a b) as [->|Hne].
      * rewrite IH. split; intros [rest H]; exists rest.
        -- by rewrite H.
        -- by injection H.
      * split; [done|]. intros [rest [= <- _]]. done.
Qed.

Lemma prefix_untagged s :
  String.prefix (fence +:+ nl) s = true ↔ ∃ rest, match_fence s = Some ("", rest).
Proof.
  rewrite prefix_iff. split; intros [rest H]; exists rest.
  - by rewrite H.
  - by apply match_fence_spec in H as [-> _].
Qed.

Lemma all_tagged_contains s :
  all_tagged s ↔ contains (fence +:+ nl) s = false.
Proof.
  induction s as [|c s IH]; [done|].
  cbn [all_tagged contains]. rewrite orb_false_iff, <- IH.
  split; intros [H1 H2]; (split; [|done]).
  - apply not_true_iff_false. intros [rest Hm]%prefix_untagged. by eapply H1.
  - intros rest Hm. apply not_true_iff_false in H1. apply H1.
    apply prefix_untagged. eauto.
Qed.

Lemma prefix_fence_app rest : String.prefix fence (fence +:+ rest) = true.
Proof. apply prefix_iff. by exists rest. Qed.

Lemma no_fence_all_tagged s : contains fence s = false → all_tagged s.
Proof.
  induction s as [|c s IH]; [done|].
  cbn [all_tagged contains]. intros [H1 H2]%orb_false_iff. split; [|auto].
  intros rest [Heq _]%match_fence_spec. rewrite Heq in H1.
  by rewrite prefix_fence_app in H1.
Qed.

End Untagged.

Lemma format_response_fixed (response : string) :
  GraphNodes.format_response response = response
  ↔ Py.contains (Py.fence +:+ Py.nl) response = false.
Proof.
  unfold GraphNodes.format_response. rewrite <- all_tagged_contains.
  destruct (Py.contains Py.fence response) eqn:E.
  - split; [intros <-; apply re_sub_all_tagged|apply re_sub_tagged].
  - pose proof (no_fence_all_tagged _ E). tauto.
Qed.

Lemma format_response_tagged (response : string) :
  Py.contains (Py.fence +:+ Py.nl) (GraphNodes.format_response response) = false.
Proof.
  unfold GraphNodes.format_response. rewrite <- all_tagged_contains.
  destruct (Py.contains Py.fence response) eqn:E.
  - apply re_sub_all_tagged.
  - by apply no_fence_all_tagged.
Qed.

(** X7.  The formatting transformation leaves a response as it is exactly
    when no fence in it is directly followed by a newline; and its result
    never has such a fence. *)
Theorem format_response_fixed_iff (response : string) :
  (GraphNodes.format_response response = response
   ↔ Py.contains (Py.fence +:+ Py.nl) response = false)
  ∧ Py.contains (Py.fence +:+ Py.nl) (GraphNodes.format_response response) = false.
Proof.
  unfold GraphNodes.format_response. rewrite <- !all_tagged_contains.
  destruct (Py.contains Py.fence response) eqn:E.
  - split; [|apply re_sub_all_tagged]. split.
    + intros <-. apply re_sub_all_tagged.
    + apply re_sub_tagged.
  - pose proof (no_fence_all_tagged _ E). tauto.
Qed.

(** ** Sources *)

(** X8.  The sources a stage extracts from retrieved chunks hold no url
    twice, and hold exactly the non-empty texts found under [url] in the
    metadata of these chunks. *)
Theorem extract_sources_spec (chunks : list SearchHit) :
  NoDup (GraphNodes.extract_sources chunks)
  ∧ ∀ u, u ∈ GraphNodes.extract_sources chunks
         ↔ u ≠ "" ∧ ∃ chunk, chunk ∈ chunks
                             ∧ hit_metadata chunk !! "url" = Some (MStr u).
Proof.
  unfold GraphNodes.extract_sources. split; [apply NoDup_elements|].
  intros u. rewrite elem_of_elements, elem_of_list_to_set, list_elem_of_omap.
  unfold GraphNodes.hit_url. split.
  - intros (chunk & Hin & Hu). revert Hu.
    destruct (hit_metadata chunk !! "url") as [m|] eqn:E; [|done].
    destruct m as [v|n]; [|done].
    destruct (Py.is_empty v) eqn:Ev; intros [= <-].
    split; [by intros ->|eauto].
  - intros (Hne & chunk & Hin & E). exists chunk. split; [done|].
    rewrite E. by destruct u.
Qed.

(** ** The branches *)

(** X9.  When the code stage reports [code_analysis_completed], the chunks
    it stored are those of its top-10 query that pass the code filter, at
    least one of them, the sources are extracted from these chunks, and the
    model was called once. *)
Theorem code_stage_own_answer (env : Env) (s s' : State) (t t' : Trace) :
  GraphNodes.code_analysis_node env s t = (Ok s', t') →
  s' !! "current_step" = Some (VStr "code_analysis_completed") →
  let user_message := get_str s "user_message" "" in
  let collection := "chat_" +:+ get_str s "chat_id" "" in
  ∃ found kept prompt answer,
    chroma_query env t collection user_message 10 = Ok found
    ∧ kept = List.filter GraphNodes.code_relevant found
    ∧ kept ≠ []
    ∧ s' !! "retrieved_chunks" = Some (VChunks kept)
    ∧ s' !! "sources" = Some (VStrs (GraphNodes.extract_sources kept))
    ∧ s' !! "response" = Some (VStr answer)
    ∧ t' = t ++ [EvQuery collection user_message 10 (Ok found);
                 EvLlm prompt (Ok answer)].
Proof.
  intros Hrun Hstep user_message collection. revert Hrun.
  assert (Hrag : ∀ t0 t1, GraphNodes.rag_node env s t0 = (Ok s', t1) → False).
  { intros t0 t1. unfold GraphNodes.rag_node. run_m.
    destruct (chroma_query env t0 _ _ _) as [[|h l]|e]; simpl;
      try destruct (llm env _ _); intros [= <- <-];
      repeat (rewrite lookup_insert_ne in Hstep by done);
      by rewrite lookup_insert_eq in Hstep. }
  unfold GraphNodes.code_analysis_node. run_m. fold user_message collection.
  destruct (chroma_query env t collection user_message 10) as [l|e]; simpl;
    [destruct (List.filter _ l) as [|h l'] eqn:Hkept;
       [|destruct (llm env _ _) as [answer|e] eqn:Hllm; simpl]|];
    try match goal with |- context [GraphNodes.rag_node env s ?t0] =>
      destruct (GraphNodes.rag_node env s t0) as [[s1|e1] t1] eqn:E;
      intros Hrun;
      first [ by (injection Hrun as <- <-; destruct (Hrag _ _ E))
            | by destruct (Hrag _ _ Hrun)
            | discriminate Hrun ] end.
  intros [= <- <-]. eexists l, (h :: l'), _, answer.
  split; [done|]. split; [done|]. split; [done|].
  split; [by rewrite !lookup_insert_ne, lookup_insert_eq by done|].
  split; [by rewrite !lookup_insert_ne, lookup_insert_eq by done|].
  split; [by rewrite !lookup_insert_ne, lookup_insert_eq by done|].
  by rewrite <- app_assoc.
Qed.


Lemma code_analysis_node_shape (env : Env) (s : State) (t : Trace) :
  GraphNodes.code_analysis_node env s t
  = (Ok (final_state_of (GraphNodes.code_analysis_node env s t)),
     snd (GraphNodes.code_analysis_node env s t)).
Proof. by destruct (code_analysis_node_returns env s t) as (s' & t' & ->). Qed.

Lemma code_stage_own_answer_witness :
  final_state_of (GraphNodes.code_analysis_node snippet_env sample_state [])
    !! "retrieved_chunks"
  = Some (VChunks [snippet_hit]).
Proof.
  destruct (code_stage_own_answer snippet_env sample_state
    (final_state_of (GraphNodes.code_analysis_node snippet_env sample_state []))
    [] (snd (GraphNodes.code_analysis_node snippet_env sample_state [])))
    as (found & kept & prompt & answer & Hq & Hk & _ & Hc & _).
  - apply code_analysis_node_shape.
  - vm_compute; reflexivity.
  - injection Hq as <-. rewrite Hc, Hk. reflexivity.
Defined.

Ltac lookups :=
  repeat first [rewrite lookup_insert_eq | rewrite lookup_insert_ne by done].

(** ** The final state *)

(** X10.  The response a run ends with is formatted: it holds no fence
    directly followed by a newline, and formatting it again would not
    change it.  This holds from any initial state. *)
Theorem final_response_is_tagged (env : Env) (init final : State) (t t' : Trace) :
  AgentGraph._build_graph env init t = (Ok final, t') →
  ∃ response,
    final !! "response" = Some (VStr response)
    ∧ Py.contains (Py.fence +:+ Py.nl) response = false
    ∧ GraphNodes.format_response response = response.
Proof.
  destruct (run_to_branch env init t) as [-> _]. unfold bind.
  match goal with |- context [AgentGraph.conditional_edges env ?s ?t0] =>
    destruct (AgentGraph.conditional_edges env s t0) as [[s4|e4] t4]; [|done] end.
  unfold GraphNodes.code_formatting_node, GraphNodes.memory_node, ret.
  intros [= <- <-]. eexists. split; [by lookups|].
  split; [apply format_response_tagged|].
  apply format_response_fixed, format_response_tagged.
Qed.

Lemma final_response_is_tagged_witness :
  ∃ response,
    final_state_of (AgentGraph._build_graph snippet_env sample_state [])
      !! "response" = Some (VStr response)
    ∧ Py.contains (Py.fence +:+ Py.nl) response = false
    ∧ GraphNodes.format_response response = response.
Proof.
  apply (final_response_is_tagged snippet_env sample_state _ []
           (snd (AgentGraph._build_graph snippet_env sample_state []))).
  apply build_graph_shape.
Defined.

Lemma rag_node_sources (env : Env) (s s' : State) (t t' : Trace) :
  GraphNodes.rag_node env s t = (Ok s', t') →
  get_strs s "sources" = [] →
  get_strs s' "sources" = []
  ∨ get_strs s' "sources"
    = GraphNodes.extract_sources (get_chunks s' "retrieved_chunks").
Proof.
  unfold GraphNodes.rag_node. run_m.
  destruct (chroma_query env t _ _ _) as [[|h l]|e]; simpl;
    try destruct (llm env _ _); intros [= <- <-] Hs;
    unfold get_strs, get_chunks in *; lookups; auto.
Qed.

Lemma code_analysis_node_sources (env : Env) (s s' : State) (t t' : Trace) :
  GraphNodes.code_analysis_node env s t = (Ok s', t') →
  get_strs s "sources" = [] →
  get_strs s' "sources" = []
  ∨ get_strs s' "sources"
    = GraphNodes.extract_sources (get_chunks s' "retrieved_chunks").
Proof.
  intros Hrun Hs. revert Hrun.
  unfold GraphNodes.code_analysis_node. run_m.
  destruct (chroma_query env t _ _ _) as [l|e]; simpl;
    [destruct (List.filter _ l) as [|h l'];
       [|destruct (llm env _ _) as [answer|e]; simpl]|];
    try match goal with |- context [GraphNodes.rag_node env s ?t0] =>
      destruct (GraphNodes.rag_node env s t0) as [[s1|e1] t1] eqn:E;
      intros Hrun;
      first [ discriminate Hrun
            | exact (rag_node_sources env s s' _ _ Hrun Hs)
            | injection Hrun as <- <-; exact (rag_node_sources env s _ _ _ E Hs) ]
      end.
  intros [= <- <-]. right. unfold get_strs, get_chunks. by lookups.
Qed.

Lemma clarification_node_sources (env : Env) (s s' : State) (t t' : Trace) :
  GraphNodes.clarification_node env s t = (Ok s', t') →
  get_strs s' "sources" = [].
Proof.
  unfold GraphNodes.clarification_node. run_m.
  destruct (llm env t _); simpl; intros [= <- <-];
    unfold get_strs; by lookups.
Qed.

(** X11.  In the state a run ends with, the sources are either empty or
    exactly the distinct urls of the chunks stored under
    [retrieved_chunks], provided the run started from a state without
    sources, as [process_message] starts it. *)
Theorem run_sources_from_chunks (env : Env) (init final : State) (t t' : Trace) :
  AgentGraph._build_graph env init t = (Ok final, t') →
  get_strs init "sources" = [] →
  get_strs final "sources" = []
  ∨ get_strs final "sources"
    = GraphNodes.extract_sources (get_chunks final "retrieved_chunks").
Proof.
  intros Hrun Hs. revert Hrun.
  destruct (run_to_branch env init t) as [-> _]. unfold bind.
  match goal with |- context [AgentGraph.conditional_edges env ?s ?t0] =>
    set (s3 := s);
    assert (Hs3 : get_strs s3 "sources" = []);
    [unfold get_strs, s3; lookups; exact Hs|];
    clearbody s3;
    destruct (AgentGraph.conditional_edges env s3 t0) as [[s4|e4] t4] eqn:E;
    [|done] end.
  assert (H4 : get_strs s4 "sources" = []
               ∨ get_strs s4 "sources"
                 = GraphNodes.extract_sources (get_chunks s4 "retrieved_chunks")).
  { revert E. unfold AgentGraph.conditional_edges.
    repeat case_bool_decide; intros E.
    - by eapply rag_node_sources.
    - by eapply code_analysis_node_sources.
    - left. by eapply clarification_node_sources.
    - done. }
  unfold GraphNodes.code_formatting_node, GraphNodes.memory_node, ret.
  intros [= <- <-]. unfold get_strs, get_chunks in *. by lookups.
Qed.

Lemma run_sources_from_chunks_witness :
  get_strs (final_state_of (AgentGraph._build_graph snippet_env sample_state []))
    "sources" = []
  ∨ get_strs (final_state_of (AgentGraph._build_graph snippet_env sample_state []))
      "sources"
    = GraphNodes.extract_sources
        (get_chunks
           (final_state_of (AgentGraph._build_graph snippet_env sample_state []))
           "retrieved_chunks").
Proof.
  apply (run_sources_from_chunks snippet_env sample_state _ []
           (snd (AgentGraph._build_graph snippet_env sample_state []))).
  - apply build_graph_shape.
  - reflexivity.
Defined.


(** ** Queries of a run *)

Lemma rag_node_queries (env : Env) (s : State) (t t' : Trace) r :
  GraphNodes.rag_node env s t = (r, t') →
  ∃ new, t' = t ++ new
         ∧ Forall (query_within (get_str s "chat_id" "")
                                (get_str s "user_message" "")) new.
Proof.
  unfold GraphNodes.rag_node. run_m.
  destruct (chroma_query env t _ _ _) as [[|h l]|e]; simpl;
    try destruct (llm env _ _); intros [= <- <-];
    (eexists; split; [rewrite <- ?app_assoc; reflexivity|]);
    repeat constructor.
Qed.

Lemma code_analysis_node_queries (env : Env) (s : State) (t t' : Trace) r :
  GraphNodes.code_analysis_node env s t = (r, t') →
  ∃ new, t' = t ++ new
         ∧ Forall (query_within (get_str s "chat_id" "")
                                (get_str s "user_message" "")) new.
Proof.
  unfold GraphNodes.code_analysis_node. run_m.
  destruct (chroma_query env t _ _ _) as [l|e]; simpl;
    [destruct (List.filter _ l) as [|h l']; [|destruct (llm env _ _); simpl]|];
    try (intros [= <- <-];
         (eexists; split; [rewrite <- ?app_assoc; reflexivity|]);
         by repeat constructor);
    match goal with |- context [GraphNodes.rag_node env s ?t0] =>
      destruct (rag_node_returns env s t0) as (s1 & t1 & E);
      try rewrite E; intros Hrun;
      first [ injection Hrun as <- <- | rewrite E in Hrun; injection Hrun as <- <- ];
      apply rag_node_queries in E as (new & -> & Hq);
      eexists; (split; [rewrite <- ?app_assoc; reflexivity|]);
      repeat (apply Forall_cons; split; [by repeat constructor|]); exact Hq end.
Qed.

Lemma clarification_node_queries (env : Env) (s : State) (t t' : Trace) r :
  GraphNodes.clarification_node env s t = (r, t') →
  ∃ new, t' = t ++ new
         ∧ Forall (query_within (get_str s "chat_id" "")
                                (get_str s "user_message" "")) new.
Proof.
  unfold GraphNodes.clarification_node. run_m.
  destruct (llm env t _); simpl; intros [= <- <-];
    (eexists; split; [reflexivity|]); by repeat constructor.
Qed.

(** X12.  A run started by [process_message] queries no collection but the
    one of its own chat: every index query it adds to the record goes to
    [chat_<chat_id>], has the message as its text, and asks for 5 or 10
    results. *)
Theorem run_queries_own_collection (env : Env) (message chat_id : string)
    (chat_history : list ChatMessage) (t t' : Trace) r :
  AgentGraph._build_graph env
    (AgentGraph.initial_state message chat_id chat_history) t = (r, t') →
  ∃ new, t' = t ++ new ∧ Forall (query_within chat_id message) new.
Proof.
  destruct (run_to_branch env
              (AgentGraph.initial_state message chat_id chat_history) t)
    as [-> _].
  destruct (initial_state_lookups message chat_id chat_history)
    as (Im & Ic & Ih).
  unfold bind.
  match goal with |- context [AgentGraph.conditional_edges env ?s ?t0] =>
    set (s3 := s);
    assert (Hc : get_str s3 "chat_id" "" = chat_id);
    [unfold get_str, s3; lookups; by rewrite Ic|];
    assert (Hu : get_str s3 "user_message" "" = message);
    [unfold get_str, s3; lookups; by rewrite Im|];
    clearbody s3;
    assert (Hq : ∀ r4 t4, AgentGraph.conditional_edges env s3 t0 = (r4, t4) →
      ∃ new, t4 = t0 ++ new ∧ Forall (query_within chat_id message) new) end.
  { intros r4 t4. rewrite <- Hc, <- Hu. unfold AgentGraph.conditional_edges.
    repeat case_bool_decide.
    - apply rag_node_queries.
    - apply code_analysis_node_queries.
    - apply clarification_node_queries.
    - intros [= <- <-]. exists []. by rewrite app_nil_r. }
  match goal with |- context [AgentGraph.conditional_edges env s3 ?t0] =>
    destruct (AgentGraph.conditional_edges env s3 t0) as [[s4|e4] t4] eqn:E;
    destruct (Hq _ _ eq_refl) as (new & -> & Hnew) end;
    unfold GraphNodes.code_formatting_node, GraphNodes.memory_node, ret;
    intros [= <- <-];
    (eexists; split; [rewrite <- app_assoc; reflexivity|]);
    by apply Forall_cons.
Qed.

Lemma run_queries_own_collection_witness :
  ∃ new,
    snd (AgentGraph._build_graph snippet_env sample_state []) = [] ++ new
    ∧ Forall (query_within "chat-1" "How do I send a GET request?") new.
Proof.
  apply (run_queries_own_collection snippet_env
           "How do I send a GET request?" "chat-1" [] []
           (snd (AgentGraph._build_graph snippet_env sample_state []))
           (fst (AgentGraph._build_graph snippet_env sample_state []))).
  unfold sample_state.
  by destruct (AgentGraph._build_graph snippet_env _ []).
Defined.




(** ** The splitter loses no paragraph *)

Section Runs.
Import Py.
Variable max_chunk_size : Z.
Variable uuid4 : nat → string.
Variables (title_ url section_id : string) (level : Z) (n0 : nat).

Lemma part_chunks_snoc runs g :
  part_chunks uuid4 n0 title_ url section_id level runs
    ++ [DocumentProcessor.section_part_chunk
          (uuid4 (n0 + length (part_chunks uuid4 n0 title_ url section_id level runs))%nat)
          (strip (seeded (seed_at title_ (length runs)) g))
          url title_ section_id level]
  = part_chunks uuid4 n0 title_ url section_id level (runs ++ [g]).
Proof.
  unfold part_chunks. rewrite imap_app, length_imap. simpl.
  by rewrite Nat.add_0_r.
Qed.

(** The loop, from chunks that hold the runs [runs] and a buffer that
    holds the run [g]: it ends with chunks and a buffer of the same
    form, and the runs and the buffer together hold the paragraphs seen,
    in order. *)
Lemma split_loop_runs blocks :
  ∀ runs g chunks' current_chunk',
    DocumentProcessor.split_loop max_chunk_size uuid4 title_ url section_id
      level n0 blocks (part_chunks uuid4 n0 title_ url section_id level runs)
      (seeded (seed_at title_ (length runs)) g) = (chunks', current_chunk') →
    ∃ runs' g',
      chunks' = part_chunks uuid4 n0 title_ url section_id level runs'
      ∧ current_chunk' = seeded (seed_at title_ (length runs')) g'
      ∧ concat runs' ++ g'
        = (concat runs ++ g)
          ++ List.filter (λ p, negb (is_empty p)) (map strip blocks).
Proof.
  induction blocks as [|block blocks IH]; intros runs g chunks' current_chunk';
    simpl.
  - intros [= <- <-]. exists runs, g. by rewrite app_nil_r.
  - destruct (is_empty (strip block)) eqn:Hempty; simpl; [apply IH|].
    destruct ((len (seeded (seed_at title_ (length runs)) g)
               + len (strip block) >? max_chunk_size)
              && negb (is_empty (strip (seeded (seed_at title_ (length runs)) g)))).
    + rewrite part_chunks_snoc, flush_buffer.
      replace (title_ +:+ DocumentProcessor.continued)
        with (seed_at title_ (length (runs ++ [g])))
        by (by rewrite length_app, Nat.add_1_r).
      intros (runs' & g' & -> & -> & Heq)%IH. exists runs', g'.
      split; [done|]. split; [done|].
      rewrite Heq, concat_app. simpl. by rewrite app_nil_r, <- !app_assoc.
    + rewrite <- seeded_snoc.
      intros (runs' & g' & -> & -> & Heq)%IH. exists runs', g'.
      split; [done|]. split; [done|].
      rewrite Heq. by rewrite <- !app_assoc.
Qed.


(** The chunks of the splitter are the chunks of runs of paragraphs. *)
Lemma split_text_parts text :
  ∃ runs,
    DocumentProcessor._split_text_intelligently max_chunk_size uuid4 n0
      text title_ url section_id level
    = part_chunks uuid4 n0 title_ url section_id level runs.
Proof.
  unfold DocumentProcessor._split_text_intelligently.
  destruct (DocumentProcessor.split_loop _ _ _ _ _ _ _ _ _ _)
    as [chunks current_chunk] eqn:E.
  rewrite <- (seeded_nil title_) in E.
  apply (split_loop_runs _ [] []) in E as (runs & g & -> & -> & _).
  destruct (is_empty (strip (seeded (seed_at title_ (length runs)) g))); simpl.
  - by exists runs.
  - exists (runs ++ [g]). apply part_chunks_snoc.
Qed.

End Runs.



(** ** Identifiers, metadata and content of the chunks *)

Section ChunkShape.
Import Py.
Variable max_chunk_size : Z.
Variable uuid4 : nat → string.

Lemma part_chunks_ids n0 title_ url section_id level runs :
  map chunk_id (part_chunks uuid4 n0 title_ url section_id level runs)
  = map uuid4 (seq n0 (length runs)).
Proof.
  unfold part_chunks. rewrite fmap_imap.
  exact (imap_seq runs uuid4 n0).
Qed.

Lemma ids_snoc (acc new : list Chunk) :
  map chunk_id acc = map uuid4 (seq 0 (length acc)) →
  map chunk_id new = map uuid4 (seq (length acc) (length new)) →
  map chunk_id (acc ++ new) = map uuid4 (seq 0 (length (acc ++ new))).
Proof.
  intros Ha Hn. by rewrite map_app, length_app, seq_app, map_app, Ha, Hn.
Qed.

Lemma add_section_ids url acc section :
  map chunk_id acc = map uuid4 (seq 0 (length acc)) →
  map chunk_id (DocumentProcessor.add_section max_chunk_size uuid4 url acc section)
  = map uuid4
      (seq 0 (length (DocumentProcessor.add_section max_chunk_size uuid4 url
                        acc section))).
Proof.
  intros Ha. unfold DocumentProcessor.add_section.
  destruct (len (sec_content section) <=? max_chunk_size).
  - by apply ids_snoc.
  - apply ids_snoc; [done|].
    destruct (split_text_parts max_chunk_size uuid4 (sec_title section) url
                (sec_id section) (sec_level section) (length acc)
                (sec_content section)) as (runs & ->).
    rewrite part_chunks_ids. unfold part_chunks. by rewrite length_imap.
Qed.

Lemma create_chunks_ids content url :
  let chunks :=
    DocumentProcessor._create_intelligent_chunks max_chunk_size uuid4 content url in
  map chunk_id chunks = map uuid4 (seq 0 (length chunks)).
Proof.
  unfold DocumentProcessor._create_intelligent_chunks.
  set (start := if negb (is_empty (title content)) then _ else _).
  assert (Hstart : map chunk_id start = map uuid4 (seq 0 (length start))).
  { subst start. by destruct (is_empty (title content)). }
  clearbody start. cbv zeta.
  assert (Hsecs : ∀ secs acc,
    map chunk_id acc = map uuid4 (seq 0 (length acc)) →
    map chunk_id (fold_left (DocumentProcessor.add_section max_chunk_size uuid4 url) secs acc)
    = map uuid4 (seq 0 (length (fold_left
        (DocumentProcessor.add_section max_chunk_size uuid4 url) secs acc)))).
  { induction secs as [|section secs IH]; intros acc Ha; simpl; [done|].
    by apply IH, add_section_ids. }
  specialize (Hsecs (sections content) start Hstart).
  revert Hsecs. generalize (fold_left
    (DocumentProcessor.add_section max_chunk_size uuid4 url) (sections content) start).
  induction (code_blocks content) as [|cb blocks IH]; intros acc Ha; simpl; [done|].
  apply IH. unfold DocumentProcessor.add_code_block. by apply ids_snoc.
Qed.

Lemma is_empty_app a b : is_empty (a +:+ b) = is_empty a && is_empty b.
Proof. by destruct a. Qed.

(** The chunks the loop adds hold text. *)
Lemma split_loop_content title_ url section_id level n0 blocks :
  ∀ chunks current_chunk chunks' current_chunk',
    Forall (λ c, is_empty (chunk_content c) = false) chunks →
    DocumentProcessor.split_loop max_chunk_size uuid4 title_ url section_id
      level n0 blocks chunks current_chunk = (chunks', current_chunk') →
    Forall (λ c, is_empty (chunk_content c) = false) chunks'.
Proof.
  induction blocks as [|block blocks IH];
    intros chunks current_chunk chunks' current_chunk' Hc; simpl.
  - by intros [= <- <-].
  - destruct (is_empty (strip block)); simpl; [by apply IH|].
    destruct (len current_chunk + len (strip block) >? max_chunk_size); simpl;
      [destruct (is_empty (strip current_chunk)) eqn:E; simpl|];
      apply IH; try done.
    apply Forall_app. split; [done|]. by apply Forall_singleton.
Qed.

Lemma split_text_content n0 text title_ url section_id level c :
  c ∈ DocumentProcessor._split_text_intelligently max_chunk_size uuid4 n0
        text title_ url section_id level →
  is_empty (chunk_content c) = false.
Proof.
  unfold DocumentProcessor._split_text_intelligently.
  destruct (DocumentProcessor.split_loop _ _ _ _ _ _ _ _ _ _)
    as [chunks current_chunk] eqn:E.
  apply split_loop_content in E; [|by apply Forall_nil].
  rewrite Forall_forall in E.
  destruct (is_empty (strip current_chunk)) eqn:Eb; simpl; [by apply E|].
  intros [Hc | ->%list_elem_of_singleton]%elem_of_app; [by apply E|done].
Qed.

Lemma split_text_shape n0 text title_ url section_id level c :
  c ∈ DocumentProcessor._split_text_intelligently max_chunk_size uuid4 n0
        text title_ url section_id level →
  ∃ uid body,
    c = DocumentProcessor.section_part_chunk uid body url title_ section_id level.
Proof.
  destruct (split_text_parts max_chunk_size uuid4 title_ url section_id level
              n0 text) as (runs & ->).
  intros [i Hi]%list_elem_of_lookup_1. unfold part_chunks in Hi.
  rewrite list_lookup_imap in Hi.
  destruct (runs !! i) as [run|]; [|done]. injection Hi as <-. eauto.
Qed.

End ChunkShape.

(** X15.  When the identifier generator never repeats itself, no two
    chunks of a page share an identifier: the chunk at position [k]
    carries the [k]-th identifier drawn. *)
Theorem chunk_ids_distinct (max_chunk_size : Z) (uuid4 : nat → string)
    (content : PageContent) (url : string) :
  let chunks :=
    DocumentProcessor._create_intelligent_chunks max_chunk_size uuid4 content url in
  (∀ i j, uuid4 i = uuid4 j → i = j) →
  map chunk_id chunks = map uuid4 (seq 0 (length chunks))
  ∧ NoDup (map chunk_id chunks).
Proof.
  intros chunks Hinj. pose proof (create_chunks_ids max_chunk_size uuid4 content url) as H.
  fold chunks in H. split; [done|]. rewrite H.
  apply NoDup_fmap_2; [exact Hinj|apply NoDup_seq].
Qed.

Lemma chunk_ids_distinct_witness :
  map chunk_id
    (DocumentProcessor._create_intelligent_chunks 40 pretty guide_page guide_url)
  = map pretty
      (seq 0 (length (DocumentProcessor._create_intelligent_chunks 40 pretty
                        guide_page guide_url)))
  ∧ NoDup (map chunk_id
      (DocumentProcessor._create_intelligent_chunks 40 pretty guide_page guide_url)).
Proof.
  apply (chunk_ids_distinct 40 pretty guide_page guide_url).
  intros i j. apply pretty_nat_inj.
Defined.

(** X16.  Every chunk of a page has text that is not empty, holds the url
    of the page in its metadata, and is of one of four kinds: a [title]
    chunk, a [section] chunk whose metadata says [section] or
    [section_part], or a [code] chunk. *)
Theorem chunk_shape (max_chunk_size : Z) (uuid4 : nat → string)
    (content : PageContent) (url : string) (c : Chunk) :
  c ∈ DocumentProcessor._create_intelligent_chunks max_chunk_size uuid4 content url →
  Py.is_empty (chunk_content c) = false
  ∧ chunk_metadata c !! "url" = Some (MStr url)
  ∧ ((chunk_type c = "title" ∧ meta_chunk_type c = Some (MStr "title"))
     ∨ (chunk_type c = "section"
        ∧ (meta_chunk_type c = Some (MStr "section")
           ∨ meta_chunk_type c = Some (MStr "section_part")))
     ∨ (chunk_type c = "code" ∧ meta_chunk_type c = Some (MStr "code"))).
Proof.
  intros [(_ & uid & ->)
         | [(section & _ & [(_ & uid & ->) | (_ & n0 & Hc)])
           | (code_block & uid & _ & ->)]]%chunk_origin.
  - split; [reflexivity|]. split; [reflexivity|]. left. by split.
  - split.
    { simpl. rewrite !is_empty_app. by rewrite andb_false_r. }
    split; [reflexivity|]. right; left. split; [done|]. by left.
  - split; [by eapply split_text_content|].
    apply split_text_shape in Hc as (uid & body & ->).
    split; [reflexivity|]. right; left. split; [done|]. by right.
  - split; [reflexivity|]. split; [reflexivity|]. right; right. by split.
Qed.

Lemma chunk_shape_witness :
  Py.is_empty
    (chunk_content (DocumentProcessor.title_chunk "0" guide_url "Requests"))
  = false
  ∧ chunk_metadata (DocumentProcessor.title_chunk "0" guide_url "Requests")
      !! "url" = Some (MStr guide_url)
  ∧ ((chunk_type (DocumentProcessor.title_chunk "0" guide_url "Requests") = "title"
      ∧ meta_chunk_type (DocumentProcessor.title_chunk "0" guide_url "Requests")
        = Some (MStr "title"))
     ∨ (chunk_type (DocumentProcessor.title_chunk "0" guide_url "Requests") = "section"
        ∧ (meta_chunk_type (DocumentProcessor.title_chunk "0" guide_url "Requests")
           = Some (MStr "section")
           ∨ meta_chunk_type (DocumentProcessor.title_chunk "0" guide_url "Requests")
             = Some (MStr "section_part")))
     ∨ (chunk_type (DocumentProcessor.title_chunk "0" guide_url "Requests") = "code"
        ∧ meta_chunk_type (DocumentProcessor.title_chunk "0" guide_url "Requests")
          = Some (MStr "code"))).
Proof.
  apply (chunk_shape 40 digit_ids guide_page guide_url).
  apply (list_elem_of_lookup_2 _ 0). vm_compute. reflexivity.
Defined.


(** ** Outcomes of the ingestion *)

Section Outcomes.
Variable max_chunk_size : Z.
Variable uuid4 : nat → string.
Variable _fetch_url : string → option string.
Variable _extract_content : string → PageContent.
Variable collection_add_error : string → list Chunk → option string.

Lemma update_status_other st chat_id status progress msg other :
  other ≠ chat_id →
  chat_sessions
    (DocumentProcessor._update_session_status st chat_id status progress msg)
    !! other
  = chat_sessions st !! other.
Proof.
  intros Hne. unfold DocumentProcessor._update_session_status.
  destruct (chat_sessions st !! chat_id); [|done]. simpl.
  by rewrite lookup_insert_ne.
Qed.

Lemma update_status_chunks st chat_id status progress msg :
  document_chunks
    (DocumentProcessor._update_session_status st chat_id status progress msg)
  = document_chunks st.
Proof. apply update_status_tables. Qed.

Lemma update_status_collections st chat_id status progress msg :
  collections
    (DocumentProcessor._update_session_status st chat_id status progress msg)
  = collections st.
Proof. apply update_status_tables. Qed.

Lemma update_status_none st chat_id status progress msg :
  chat_sessions st !! chat_id = None →
  chat_sessions
    (DocumentProcessor._update_session_status st chat_id status progress msg)
    !! chat_id = None.
Proof. intros H. by rewrite update_status_missing. Qed.

(** What [_store_chunks] does to the store, whether the vector store
    fails or not. *)
Lemma store_chunks_effect st chunks chat_id :
  let name := "chat_" +:+ chat_id in
  let run :=
    DocumentProcessor._store_chunks collection_add_error st chunks chat_id in
  chat_sessions run.2 = chat_sessions st
  ∧ document_chunks run.2 = document_chunks st ++ map (chunk_row chat_id) chunks
  ∧ collections run.2
    = <[name := default [] (collections st !! name)
                ++ match collection_add_error name chunks with
                   | None => chunks
                   | Some _ => []
                   end]> (collections st)
  ∧ run.1 = match collection_add_error name chunks with
            | None => Ok ()
            | Some e => Raise e
            end.
Proof.
  unfold DocumentProcessor._store_chunks, DocumentProcessor.add_chunks. simpl.
  destruct (collection_add_error _ chunks); simpl; by rewrite ?app_nil_r.
Qed.

(** The six steps of a run that gets as far as storing chunks. *)
Lemma process_documentation_stores url chat_id st html :
  _fetch_url url = Some html →
  Py.is_empty html = false →
  let chunks :=
    DocumentProcessor._create_intelligent_chunks max_chunk_size uuid4
      (_extract_content html) url in
  chunks ≠ [] →
  let st3 :=
    DocumentProcessor._update_session_status
      (DocumentProcessor._update_session_status
         (DocumentProcessor._update_session_status
            (DocumentProcessor._update_session_status st chat_id "processing" 10 None)
            chat_id "processing" 30 None)
         chat_id "processing" 50 None)
      chat_id "processing" 70 None in
  let stored :=
    DocumentProcessor._store_chunks collection_add_error st3 chunks chat_id in
  DocumentProcessor.process_documentation max_chunk_size uuid4 _fetch_url
    _extract_content collection_add_error url chat_id st
  = match stored.1 with
    | Ok _ =>
        (true,
         DocumentProcessor._update_session_status stored.2 chat_id "completed" 100 None)
    | Raise e =>
        (false,
         DocumentProcessor._update_session_status stored.2 chat_id "failed" 0 (Some e))
    end.
Proof.
  intros Hfetch Hhtml chunks Hchunks st3 stored.
  subst stored st3. unfold DocumentProcessor.process_documentation.
  rewrite Hfetch, Hhtml. fold chunks. clearbody chunks.
  destruct chunks as [|c l]; [done|].
  by destruct (DocumentProcessor._store_chunks _ _ _ _) as [[[]|e] st4].
Qed.

(** X17.  A successful ingestion: when the page is fetched, the chunker
    gives at least one chunk and the vector store takes them,
    [process_documentation] answers [True]; the chunk table gains one row
    per chunk, in order, under the chat's id; the collection of the chat
    gains the chunks; and the session row of the chat, when there is one,
    ends with status [completed] and progress 100, its url and error
    message as they were. *)
Theorem ingestion_success (url chat_id html : string) (st : Store) :
  let chunks :=
    DocumentProcessor._create_intelligent_chunks max_chunk_size uuid4
      (_extract_content html) url in
  let name := "chat_" +:+ chat_id in
  _fetch_url url = Some html →
  Py.is_empty html = false →
  chunks ≠ [] →
  collection_add_error name chunks = None →
  ∃ st',
    DocumentProcessor.process_documentation max_chunk_size uuid4 _fetch_url
      _extract_content collection_add_error url chat_id st = (true, st')
    ∧ document_chunks st' = document_chunks st ++ map (chunk_row chat_id) chunks
    ∧ collections st'
      = <[name := default [] (collections st !! name) ++ chunks]> (collections st)
    ∧ ∀ session, chat_sessions st !! chat_id = Some session →
        chat_sessions st' !! chat_id
        = Some {| cs_url := cs_url session;
                  cs_status := "completed";
                  cs_progress := 100;
                  cs_error_message := cs_error_message session |}.
Proof.
  intros chunks name Hfetch Hhtml Hchunks Hadd.
  rewrite (process_documentation_stores url chat_id st html Hfetch Hhtml Hchunks).
  match goal with |- context [DocumentProcessor._store_chunks _ ?s _ _] =>
    set (st3 := s) end.
  destruct (store_chunks_effect st3 chunks chat_id) as (Hs & Hr & Hc & Hres).
  fold chunks. fold name in Hc, Hres. rewrite Hadd in Hc, Hres. rewrite Hres.
  eexists. split; [reflexivity|].
  rewrite update_status_chunks, update_status_collections, Hr, Hc.
  unfold st3. rewrite !update_status_chunks, !update_status_collections.
  split; [done|]. split; [done|].
  intros session Hsession.
  pose proof (update_status_row st chat_id "processing" 10 None _ Hsession) as H1.
  pose proof (update_status_row _ chat_id "processing" 30 None _ H1) as H2.
  pose proof (update_status_row _ chat_id "processing" 50 None _ H2) as H3.
  pose proof (update_status_row _ chat_id "processing" 70 None _ H3) as H4.
  fold st3 in H4. rewrite <- Hs in H4.
  exact (update_status_row _ chat_id "completed" 100 None _ H4).
Qed.


Lemma within_chat_refl chat_id st : within_chat chat_id st st.
Proof.
  repeat split; try done.
  - exists []. by rewrite app_nil_r.
  - eauto.
Qed.

Lemma within_chat_trans chat_id st1 st2 st3 :
  within_chat chat_id st1 st2 → within_chat chat_id st2 st3 →
  within_chat chat_id st1 st3.
Proof.
  intros (Ho & Hc & (rows & Hr & Hrows) & Hn & Hs)
         (Ho' & Hc' & (rows' & Hr' & Hrows') & Hn' & Hs').
  split; [|split; [|split; [|split]]].
  - intros other Hne. by rewrite Ho', Ho.
  - intros name Hne. by rewrite Hc', Hc.
  - exists (rows ++ rows'). split.
    + by rewrite Hr', Hr, <- app_assoc.
    + by apply Forall_app.
  - auto.
  - intros session (s2 & H2 & Hu)%Hs.
    apply Hs' in H2 as (s3 & H3 & Hu'). exists s3. split; [done|].
    by rewrite Hu', Hu.
Qed.

Lemma update_status_within st chat_id status progress msg :
  within_chat chat_id st
    (DocumentProcessor._update_session_status st chat_id status progress msg).
Proof.
  split; [|split; [|split; [|split]]].
  - intros other Hne. by apply update_status_other.
  - intros name _. by rewrite update_status_collections.
  - exists []. rewrite update_status_chunks. by rewrite app_nil_r.
  - apply update_status_none.
  - intros session Hs. eexists. split; [by apply update_status_row|done].
Qed.

Lemma store_chunks_within st chunks chat_id :
  within_chat chat_id st
    (DocumentProcessor._store_chunks collection_add_error st chunks chat_id).2.
Proof.
  destruct (store_chunks_effect st chunks chat_id) as (Hs & Hr & Hc & _).
  split; [|split; [|split; [|split]]].
  - intros other _. by rewrite Hs.
  - intros name Hne. rewrite Hc. by rewrite lookup_insert_ne.
  - eexists. split; [exact Hr|]. apply Forall_forall.
    intros row (chunk & -> & _)%list_elem_of_fmap. done.
  - by rewrite Hs.
  - rewrite Hs. eauto.
Qed.

(** Every run ends with one last update of the session row, made on a
    store that was changed within the chat, and the flag returned goes
    with the status written. *)
Lemma process_documentation_ends url chat_id st :
  ∃ mid ok status progress msg,
    DocumentProcessor.process_documentation max_chunk_size uuid4 _fetch_url
      _extract_content collection_add_error url chat_id st
    = (ok, DocumentProcessor._update_session_status mid chat_id status progress msg)
    ∧ within_chat chat_id st mid
    ∧ ((ok = true ∧ status = "completed" ∧ progress = 100)
       ∨ (ok = false ∧ status = "failed" ∧ progress = 0)).
Proof.
  unfold DocumentProcessor.process_documentation.
  destruct (_fetch_url url) as [html|];
    [destruct (Py.is_empty html);
       [|destruct (DocumentProcessor._create_intelligent_chunks _ _ _ _) as [|c l];
           [|match goal with |- context [DocumentProcessor._store_chunks _ ?s ?cs _] =>
               pose proof (store_chunks_within s cs chat_id) as Hstored;
               destruct (DocumentProcessor._store_chunks _ s cs chat_id)
                 as [[[]|e] st4] end]]|];
    eexists _, _, _, _, _; (split; [reflexivity|]);
    (split; [|by auto]);
    repeat (first [ exact Hstored | apply update_status_within
                  | eapply within_chat_trans; [|exact Hstored]
                  | eapply within_chat_trans; [|apply update_status_within] ]).
Qed.

(** X19.  Whatever happens, an ingestion stays within its chat and
    leaves the session row settled: session rows and collections of other
    chats are untouched, the chunk table only gains rows of this chat, a
    missing session row is not created, and a session row that exists
    keeps its url and ends with status [completed] and progress 100 when
    [process_documentation] answers [True], with status [failed] and
    progress 0 when it answers [False]. *)
Theorem ingestion_within_chat (url chat_id : string) (st : Store) :
  within_chat chat_id st
    (DocumentProcessor.process_documentation max_chunk_size uuid4 _fetch_url
       _extract_content collection_add_error url chat_id st).2
  ∧ ∀ session, chat_sessions st !! chat_id = Some session →
      ∃ session',
        chat_sessions
          (DocumentProcessor.process_documentation max_chunk_size uuid4
             _fetch_url _extract_content collection_add_error url chat_id st).2
          !! chat_id = Some session'
        ∧ if (DocumentProcessor.process_documentation max_chunk_size uuid4
                _fetch_url _extract_content collection_add_error url chat_id st).1
          then cs_status session' = "completed" ∧ cs_progress session' = 100
          else cs_status session' = "failed" ∧ cs_progress session' = 0.
Proof.
  destruct (process_documentation_ends url chat_id st)
    as (mid & ok & status & progress & msg & -> & Hmid & Hok). simpl.
  split.
  - eapply within_chat_trans; [exact Hmid|apply update_status_within].
  - intros session Hs.
    destruct Hmid as (_ & _ & _ & _ & Hrow).
    apply Hrow in Hs as (session1 & Hs1 & _).
    eexists. split; [by apply update_status_row|].
    by destruct Hok as [(-> & -> & ->)|(-> & -> & ->)].
Qed.

End Outcomes.

Lemma ingestion_success_witness :
  ∃ st',
    DocumentProcessor.process_documentation 40 digit_ids
      (λ _, Some "<html>guide</html>") (λ _, guide_page) (λ _ _, None)
      guide_url "chat-1" pending_store = (true, st')
    ∧ document_chunks st' = document_chunks pending_store
                             ++ map (chunk_row "chat-1") guide_chunks
    ∧ collections st'
      = <["chat_" +:+ "chat-1" :=
            default [] (collections pending_store !! ("chat_" +:+ "chat-1"))
            ++ guide_chunks]> (collections pending_store)
    ∧ ∀ session, chat_sessions pending_store !! "chat-1" = Some session →
        chat_sessions st' !! "chat-1"
        = Some {| cs_url := cs_url session;
                  cs_status := "completed";
                  cs_progress := 100;
                  cs_error_message := cs_error_message session |}.
Proof.
  apply (ingestion_success 40 digit_ids (λ _, Some "<html>guide</html>")
           (λ _, guide_page) (λ _ _, None) guide_url "chat-1"
           "<html>guide</html>" pending_store).
  - reflexivity.
  - reflexivity.
  - vm_compute. discriminate.
  - reflexivity.
Defined.


Lemma ingestion_within_chat_witness :
  ∃ session',
    chat_sessions
      (DocumentProcessor.process_documentation 40 digit_ids
         (λ _, None) (λ _, guide_page) (λ _ _, None)
         guide_url "chat-1" pending_store).2 !! "chat-1" = Some session'
    ∧ if (DocumentProcessor.process_documentation 40 digit_ids
            (λ _, None) (λ _, guide_page) (λ _ _, None)
            guide_url "chat-1" pending_store).1
      then cs_status session' = "completed" ∧ cs_progress session' = 100
      else cs_status session' = "failed" ∧ cs_progress session' = 0.
Proof.
  apply (proj2 (ingestion_within_chat 40 digit_ids (λ _, None) (λ _, guide_page)
                  (λ _ _, None) guide_url "chat-1" pending_store)
           {| cs_url := "https://docs.example.org/empty";
              cs_status := "pending";
              cs_progress := 0;
              cs_error_message := None |}).
  vm_compute. reflexivity.
Defined.


(** ** The chat service *)


(** X20.  A chat without a session row, or whose session is not
    [completed], is refused: the service answers with the fixed error text
    of the case, writes nothing to the backend, and makes no call to the
    model or the index. *)
Theorem chat_needs_completed_session (env : Env)
    (order_by_timestamp : list MessageRow → list MessageRow)
    (chat_id message user_time assistant_time : string)
    (db : Backend) (t : Trace) :
  (∀ session, chat_sessions (tables db) !! chat_id = Some session →
     cs_status session ≠ "completed") →
  ChatService.process_message env order_by_timestamp chat_id message
    user_time assistant_time db t
  = ({| cr_chat_id := chat_id;
        cr_response :=
          match chat_sessions (tables db) !! chat_id with
          | None => ChatService.session_not_found
          | Some _ => ChatService.still_processing
          end;
        cr_sources := [];
        cr_metadata := None |}, db, t).
Proof.
  intros Hstatus. unfold ChatService.process_message.
  destruct (chat_sessions (tables db) !! chat_id) as [session|]; [|done].
  by rewrite bool_decide_eq_false_2 by (by apply Hstatus).
Qed.

Lemma chat_needs_completed_session_witness :
  ChatService.process_message quiet_env (λ rows, rows) "chat-1"
    "How do I send a GET request?" "2024-05-01T10:00:00" "2024-05-01T10:00:01"
    pending_backend []
  = ({| cr_chat_id := "chat-1";
        cr_response :=
          match chat_sessions (tables pending_backend) !! "chat-1" with
          | None => ChatService.session_not_found
          | Some _ => ChatService.still_processing
          end;
        cr_sources := [];
        cr_metadata := None |}, pending_backend, []).
Proof.
  apply (chat_needs_completed_session quiet_env (λ rows, rows) "chat-1").
  intros session. vm_compute. intros [= <-]. discriminate.
Defined.




(** X22.  Deleting a chat always reports success, also for a chat that
    does not exist and also when the vector store fails, so the endpoint
    never answers 404.  Afterwards the chat has no session row and no
    message; the session rows and messages of other chats are as before,
    in the same order; the rows of the chunk table are all still there,
    those of the deleted chat included; and the collection of the chat is
    gone unless the vector store failed. *)
Theorem delete_chat_effect (delete_collection_error : string → option string)
    (chat_id : string) (db : Backend) :
  ∃ db',
    Main.delete_chat delete_collection_error chat_id db
    = (Http200 ("Chat session " +:+ chat_id +:+ " deleted successfully"), db')
    ∧ ChatService.delete_chat delete_collection_error chat_id db = (true, db')
    ∧ chat_sessions (tables db') = delete chat_id (chat_sessions (tables db))
    ∧ chat_messages db'
      = List.filter (λ row, negb (bool_decide (mr_chat_id row = chat_id)))
                    (chat_messages db)
    ∧ document_chunks (tables db') = document_chunks (tables db)
    ∧ collections (tables db')
      = match delete_collection_error ("chat_" +:+ chat_id) with
        | None => delete ("chat_" +:+ chat_id) (collections (tables db))
        | Some _ => collections (tables db)
        end.
Proof.
  unfold Main.delete_chat, ChatService.delete_chat, ChatService.delete_chat_data.
  eexists. split; [reflexivity|]. split; [reflexivity|]. simpl.
  by destruct (delete_collection_error _).
Qed.


